(** * Nest Matters: the unified climate entity

    A shallow embedding of [custom_components/nest_matters/climate.py] and
    [const.py], and the properties of the unified climate proxy: which source
    each accessor reads, when the entity is available, which service calls the
    setters forward, and how listeners are registered and released. *)

From Stdlib Require Import PrimFloat ZArith.
From stdpp Require Import gmap strings list fin_maps.

Set Warnings "-register-all".
Local Open Scope string_scope.
Local Open Scope Z_scope.
Local Open Scope list_scope.

(** ** Python values *)

(** The values that travel through the entity: attribute values of the source
    records, keyword arguments and service-call payloads.  A Python [float] is
    an IEEE double; the entity never computes with it. *)
Inductive pyval :=
| PNone
| PBool (b : bool)
| PInt (z : Z)
| PFloat (f : float)
| PStr (s : string)
| PList (l : list pyval).

(** [d.get(key)] on a dict. *)
Definition dict_get (d : gmap string pyval) (key : string) : pyval :=
  default PNone (d !! key).

(** [d.get(key, fallback)] on a dict. *)
Definition dict_get_or (d : gmap string pyval) (key : string) (fallback : pyval) : pyval :=
  default fallback (d !! key).

(** Truth value of a dict in a condition: a dict is false exactly when it has
    no entries. *)
Definition dict_truthy (d : gmap string pyval) : bool :=
  negb (Nat.eqb (size d) 0).

(** [v is None]. *)
Definition is_None (v : pyval) : bool :=
  match v with PNone => true | _ => false end.

(** ** const.py *)

Module const.
Definition DOMAIN : string := "nest_matters".
Definition CONF_MATTER_ENTITY : string := "matter_entity".
Definition CONF_GOOGLE_ENTITY : string := "google_entity".
Definition CONF_NAME : string := "name".
Definition DEFAULT_TEMP_SOURCE : string := "matter".
Definition DEFAULT_MODE_SOURCE : string := "google".
Definition DEFAULT_FAN_SOURCE : string := "google".
Definition INTEGRATION_TITLE : string := "Nest Matters".
End const.

(** ** The host: registry, event helper, service dispatcher *)

(** Modelled from the spec: the record [getState(entityId)] yields, a raw
    state string and a mapping of attributes (the host's [State] class). *)
Record State := mkState {
  state : string;
  attributes : gmap string pyval
}.

(** Modelled from the spec: the state-changed notification handed to a
    handler (the host's event object). *)
Record Event := mkEvent {
  ev_entity_id : string;
  ev_old_state : option State;
  ev_new_state : option State
}.

(** The bound method [self._handle_source_state_change] as the event helper
    keeps it: the receiver is named by its unique id. *)
Record BoundHandler := mkBound { receiver : string }.

(** Modelled from the spec: one subscription of the event helper, the entity
    ids it covers and the handler it fires; [handle] names the unsubscribe
    callable returned to the subscriber. *)
Record Listener := mkListener {
  handle : nat;
  entity_ids : list string;
  action : BoundHandler
}.

(** One [hass.services.async_call(domain, service, service_data)]. *)
Record ServiceCall := mkCall {
  domain : string;
  service : string;
  service_data : gmap string pyval
}.

(** One [_LOGGER.debug(msg, *args)]. *)
Record LogRecord := mkLog {
  msg : string;
  args : list pyval
}.

(** How a call into the host ends: it returns a value or raises. *)
Inductive exn := HostError (what : string).

Inductive outcome (A : Type) :=
| Returned (a : A)
| Raised (e : exn).
Arguments Returned {A} a.
Arguments Raised {A} e.

(** Modelled from the spec: the host object [hass] as far as the entity
    touches it.  [states] is the entity registry read by [getState];
    [listeners] and [next_handle] are the event helper's subscriptions;
    [services] is the dispatcher's answer to a command dispatch, which
    returns or raises (an unknown service, a rejected payload);
    [service_calls] records the outbound command dispatches, [state_writes]
    the re-publishes (one unique id per [async_write_ha_state]) and
    [debug_log] the debug records, each in the order issued. *)
Record HomeAssistant := mkHass {
  states : gmap string State;
  listeners : list Listener;
  next_handle : nat;
  services : ServiceCall -> outcome unit;
  service_calls : list ServiceCall;
  state_writes : list string;
  debug_log : list LogRecord
}.

Definition set_listeners (ls : list Listener) (h : HomeAssistant) : HomeAssistant :=
  mkHass (states h) ls (next_handle h) (services h) (service_calls h) (state_writes h)
    (debug_log h).

Definition set_next_handle (n : nat) (h : HomeAssistant) : HomeAssistant :=
  mkHass (states h) (listeners h) n (services h) (service_calls h) (state_writes h)
    (debug_log h).

Definition set_service_calls (cs : list ServiceCall) (h : HomeAssistant) : HomeAssistant :=
  mkHass (states h) (listeners h) (next_handle h) (services h) cs (state_writes h)
    (debug_log h).

Definition set_state_writes (ws : list string) (h : HomeAssistant) : HomeAssistant :=
  mkHass (states h) (listeners h) (next_handle h) (services h) (service_calls h) ws
    (debug_log h).

Definition set_debug_log (lg : list LogRecord) (h : HomeAssistant) : HomeAssistant :=
  mkHass (states h) (listeners h) (next_handle h) (services h) (service_calls h)
    (state_writes h) lg.

Definition set_services (sv : ServiceCall -> outcome unit) (h : HomeAssistant)
  : HomeAssistant :=
  mkHass (states h) (listeners h) (next_handle h) sv (service_calls h) (state_writes h)
    (debug_log h).

Definition set_states (st : gmap string State) (h : HomeAssistant) : HomeAssistant :=
  mkHass st (listeners h) (next_handle h) (services h) (service_calls h) (state_writes h)
    (debug_log h).

(** ** Effects: host state threaded through every call, exceptions kept *)

(** A computation runs on the host and leaves it changed, also when it
    raises: what was done before the exception stays done. *)
Definition M (A : Type) : Type := HomeAssistant -> outcome A * HomeAssistant.

#[export] Instance M_ret : MRet M := fun A a h => (Returned a, h).

#[export] Instance M_bind : MBind M := fun A B f c h =>
  match c h with
  | (Returned a, h') => f a h'
  | (Raised e, h') => (Raised e, h')
  end.

Definition raise {A : Type} (e : exn) : M A := fun h => (Raised e, h).

(** [for x in l: body(x)], which stops at the first exception. *)
Fixpoint for_each {A : Type} (body : A -> M unit) (l : list A) : M unit :=
  match l with
  | [] => mret tt
  | x :: rest => body x ;; for_each body rest
  end.

(** [hass.states.get(entity_id)]. *)
Definition states_get (entity_id : string) : M (option State) :=
  fun h => (Returned (states h !! entity_id), h).

(** Modelled from the spec: [hass.services.async_call(domain, service,
    service_data)].  The call is dispatched, and it ends as the dispatcher
    answers: an error of the dispatcher is raised to the caller. *)
Definition services_async_call (d s : string) (data : gmap string pyval) : M unit :=
  fun h =>
    (services h (mkCall d s data),
     set_service_calls (service_calls h ++ [mkCall d s data]) h).

(** [_LOGGER.debug(msg, *args)]. *)
Definition LOGGER_debug (m : string) (a : list pyval) : M unit :=
  fun h => (Returned tt, set_debug_log (debug_log h ++ [mkLog m a]) h).

(** Modelled from the spec: the re-publish of an entity's state, inherited
    from the host's entity class; the entity is named by its unique id. *)
Definition async_write_ha_state (unique_id : string) : M unit :=
  fun h => (Returned tt, set_state_writes (state_writes h ++ [unique_id]) h).

(** Modelled from the spec: subscribe-to-state-change(entityIds, handler).
    The subscription is appended to the helper's list and a fresh handle is
    returned to the owner. *)
Definition async_track_state_change_event
    (ids : list string) (act : BoundHandler) : M nat :=
  fun h =>
    let k := next_handle h in
    (Returned k,
     set_next_handle (S k) (set_listeners (listeners h ++ [mkListener k ids act]) h)).

(** Modelled from the spec: the subscription behind handle [k] is still in
    the helper's list. *)
Definition registered (k : nat) (h : HomeAssistant) : bool :=
  existsb (fun l => Nat.eqb (handle l) k) (listeners h).

(** Modelled from the spec: the helper's list without the subscription
    behind handle [k]. *)
Definition drop_listener (k : nat) (ls : list Listener) : list Listener :=
  filter (fun l => handle l ≠ k) ls.

(** ** climate.py: the entity *)

(** Modelled from the spec: the host's temperature units and climate
    features; the entity declares Celsius, target temperature and fan mode. *)
Inductive UnitOfTemperature := CELSIUS | FAHRENHEIT | KELVIN.
Inductive ClimateEntityFeature := TARGET_TEMPERATURE | FAN_MODE.

(** The fields [__init__] sets.  [hass] is the shared host, threaded through
    [M]; [_remove_listeners] holds the handles of the unsubscribe callables. *)
Record NestMattersClimate := mkClimate {
  _attr_name : string;
  _matter_entity_id : string;
  _google_entity_id : string;
  _entry_id : string;
  _attr_unique_id : string;
  _attr_temperature_unit : UnitOfTemperature;
  _attr_supported_features : list ClimateEntityFeature;
  _remove_listeners : list nat
}.

Definition set_remove_listeners (ks : list nat) (self : NestMattersClimate)
  : NestMattersClimate :=
  mkClimate (_attr_name self) (_matter_entity_id self) (_google_entity_id self)
    (_entry_id self) (_attr_unique_id self) (_attr_temperature_unit self)
    (_attr_supported_features self) ks.

Definition __init__ (name matter_entity_id google_entity_id entry_id : string)
  : NestMattersClimate :=
  {| _attr_name := name;
     _matter_entity_id := matter_entity_id;
     _google_entity_id := google_entity_id;
     _entry_id := entry_id;
     _attr_unique_id := String.append const.DOMAIN (String.append "_" entry_id);
     _attr_temperature_unit := CELSIUS;
     _attr_supported_features := [TARGET_TEMPERATURE; FAN_MODE];
     _remove_listeners := [] |}.

Definition current_temperature (self : NestMattersClimate) : M pyval :=
  matter_state ← states_get (_matter_entity_id self);
  match matter_state with
  | Some st =>
      if dict_truthy (attributes st)
      then mret (dict_get (attributes st) "current_temperature")
      else mret PNone
  | None => mret PNone
  end.

Definition target_temperature (self : NestMattersClimate) : M pyval :=
  matter_state ← states_get (_matter_entity_id self);
  match matter_state with
  | Some st =>
      if dict_truthy (attributes st)
      then mret (dict_get (attributes st) "temperature")
      else mret PNone
  | None => mret PNone
  end.

Definition hvac_mode (self : NestMattersClimate) : M pyval :=
  google_state ← states_get (_google_entity_id self);
  match google_state with
  | Some st => mret (PStr (state st))
  | None => mret PNone
  end.

Definition hvac_modes (self : NestMattersClimate) : M pyval :=
  google_state ← states_get (_google_entity_id self);
  match google_state with
  | Some st =>
      if dict_truthy (attributes st)
      then mret (dict_get_or (attributes st) "hvac_modes" (PList []))
      else mret (PList [])
  | None => mret (PList [])
  end.

Definition fan_mode (self : NestMattersClimate) : M pyval :=
  google_state ← states_get (_google_entity_id self);
  match google_state with
  | Some st =>
      if dict_truthy (attributes st)
      then mret (dict_get (attributes st) "fan_mode")
      else mret PNone
  | None => mret PNone
  end.

Definition fan_modes (self : NestMattersClimate) : M pyval :=
  google_state ← states_get (_google_entity_id self);
  match google_state with
  | Some st =>
      if dict_truthy (attributes st)
      then mret (dict_get_or (attributes st) "fan_modes" (PList []))
      else mret (PList [])
  | None => mret (PList [])
  end.

Definition current_humidity (self : NestMattersClimate) : M pyval :=
  google_state ← states_get (_google_entity_id self);
  match google_state with
  | Some st =>
      if dict_truthy (attributes st)
      then mret (dict_get (attributes st) "current_humidity")
      else mret PNone
  | None => mret PNone
  end.

Definition min_temp (self : NestMattersClimate) : M pyval :=
  matter_state ← states_get (_matter_entity_id self);
  match matter_state with
  | Some st =>
      if dict_truthy (attributes st)
      then mret (dict_get_or (attributes st) "min_temp" (PInt 7))
      else mret (PInt 7)
  | None => mret (PInt 7)
  end.

Definition max_temp (self : NestMattersClimate) : M pyval :=
  matter_state ← states_get (_matter_entity_id self);
  match matter_state with
  | Some st =>
      if dict_truthy (attributes st)
      then mret (dict_get_or (attributes st) "max_temp" (PInt 35))
      else mret (PInt 35)
  | None => mret (PInt 35)
  end.

(** [s is not None and s.state != "unavailable"]. *)
Definition present_and_up (s : option State) : bool :=
  match s with
  | Some st => negb (String.eqb (state st) "unavailable")
  | None => false
  end.

Definition available (self : NestMattersClimate) : M bool :=
  matter_state ← states_get (_matter_entity_id self);
  google_state ← states_get (_google_entity_id self);
  mret (present_and_up matter_state && present_and_up google_state).

Definition async_update (self : NestMattersClimate) : M unit :=
  mret tt.

Definition _handle_source_state_change (self_unique_id : string) (event : Event)
  : M unit :=
  async_write_ha_state self_unique_id.

Definition async_added_to_hass (self : NestMattersClimate) : M NestMattersClimate :=
  k ← async_track_state_change_event
         [_matter_entity_id self; _google_entity_id self]
         (mkBound (_attr_unique_id self));
  let self' := set_remove_listeners (_remove_listeners self ++ [k]) self in
  async_update self';;
  mret self'.

Definition async_set_hvac_mode (self : NestMattersClimate) (hvac_mode : pyval)
  : M unit :=
  LOGGER_debug "Setting HVAC mode to %s via Google entity %s"
    [hvac_mode; PStr (_google_entity_id self)];;
  services_async_call "climate" "set_hvac_mode"
    (<["hvac_mode" := hvac_mode]> {["entity_id" := PStr (_google_entity_id self)]}).

Definition async_set_fan_mode (self : NestMattersClimate) (fan_mode : pyval)
  : M unit :=
  LOGGER_debug "Setting fan mode to %s via Google entity %s"
    [fan_mode; PStr (_google_entity_id self)];;
  services_async_call "climate" "set_fan_mode"
    (<["fan_mode" := fan_mode]> {["entity_id" := PStr (_google_entity_id self)]}).

(** Modelled from the spec: the event helper's dispatch, which fires the
    handler of every subscription covering the entity whose state changed, in
    the order the subscriptions were made. *)
Definition fire_state_changed (event : Event) : M unit :=
  fun h =>
    for_each (fun l => _handle_source_state_change (receiver (action l)) event)
      (filter (fun l => ev_entity_id event ∈ entity_ids l) (listeners h)) h.

(** Modelled from the spec: a state transition of a source.  The registry
    takes the new record (or loses the record) and the notification is
    dispatched. *)
Definition source_state_changed (id : string) (new : option State) : M unit :=
  fun h =>
    fire_state_changed (mkEvent id (states h !! id) new)
      (set_states (partial_alter (fun _ => new) id (states h)) h).

(** The read accessors by name. *)
Inductive accessor :=
| CurrentTemperature | TargetTemperature | HvacMode | HvacModes | FanMode
| FanModes | CurrentHumidity | MinTemp | MaxTemp | Available.

Definition read (a : accessor) (self : NestMattersClimate) : M pyval :=
  match a with
  | CurrentTemperature => current_temperature self
  | TargetTemperature => target_temperature self
  | HvacMode => hvac_mode self
  | HvacModes => hvac_modes self
  | FanMode => fan_mode self
  | FanModes => fan_modes self
  | CurrentHumidity => current_humidity self
  | MinTemp => min_temp self
  | MaxTemp => max_temp self
  | Available => b ← available self; mret (PBool b)
  end.

(** What the host and the sources can do with an entity, one call at a time. *)
Inductive op :=
| Attach
| Detach
| SourceChanged (id : string) (new : option State)
| SetTemperature (kwargs : gmap string pyval)
| SetHvacMode (mode : pyval)
| SetFanMode (mode : pyval)
| Read (a : accessor).

Section Host.

(** The key under which the host passes the target temperature
    (its constant [ATTR_TEMPERATURE]). *)
Variable ATTR_TEMPERATURE : string.

(** What the host does when an unsubscribe callable is invoked although its
    subscription is no longer registered; the repository does not fix it. *)
Variable remove_stale : nat -> M unit.

(** Modelled from the spec: invoking the unsubscribe callable with handle
    [k].  While the subscription is registered it is removed. *)
Definition remove_listener (k : nat) : M unit :=
  fun h =>
    if registered k h
    then (Returned tt, set_listeners (drop_listener k (listeners h)) h)
    else remove_stale k h.

Definition async_will_remove_from_hass (self : NestMattersClimate) : M unit :=
  for_each remove_listener (_remove_listeners self).

Definition async_set_temperature (self : NestMattersClimate)
    (kwargs : gmap string pyval) : M unit :=
  let temperature := dict_get kwargs ATTR_TEMPERATURE in
  if is_None temperature then mret tt
  else
    LOGGER_debug "Setting temperature to %s via Matter entity %s"
      [temperature; PStr (_matter_entity_id self)];;
    services_async_call "climate" "set_temperature"
      (<["temperature" := temperature]>
         {["entity_id" := PStr (_matter_entity_id self)]}).

(** One call on the entity.  The entity and the host go on as the call
    left them, whether it returned or raised. *)
Definition step (o : op) (w : NestMattersClimate * HomeAssistant)
  : NestMattersClimate * HomeAssistant :=
  let '(self, h) := w in
  match o with
  | Attach =>
      match async_added_to_hass self h with
      | (Returned self', h') => (self', h')
      | (Raised _, h') => (self, h')
      end
  | Detach => (self, (async_will_remove_from_hass self h).2)
  | SourceChanged id new => (self, (source_state_changed id new h).2)
  | SetTemperature kwargs => (self, (async_set_temperature self kwargs h).2)
  | SetHvacMode mode => (self, (async_set_hvac_mode self mode h).2)
  | SetFanMode mode => (self, (async_set_fan_mode self mode h).2)
  | Read a => (self, (read a self h).2)
  end.

Definition run (ops : list op) (w : NestMattersClimate * HomeAssistant)
  : NestMattersClimate * HomeAssistant :=
  foldl (fun w o => step o w) w ops.

End Host.

(** ** Hosts and registries used in the examples *)

(** A host whose unsubscribe callables may be invoked again without effect. *)
Definition stale_ignored : nat -> M unit := fun _ => mret tt.

(** A host whose unsubscribe callables raise when invoked again. *)
Definition stale_raises : nat -> M unit :=
  fun _ => raise (HostError "listener is not registered").

(** A host with an empty registry and nothing subscribed or issued, whose
    dispatcher accepts every call. *)
Definition hass0 : HomeAssistant :=
  mkHass ∅ [] 0%nat (fun _ => Returned tt) [] [] [].

Definition with_states (st : gmap string State) : HomeAssistant :=
  set_states st hass0.

Definition thermostat : NestMattersClimate :=
  __init__ "Hallway" "climate.matter" "climate.google" "e1".

(** The two source records of the scenario of the specification. *)
Definition matter_record : State :=
  mkState "heat"
    (<["current_temperature" := PFloat 19.5%float]>
       (<["temperature" := PInt 21]>
          (<["min_temp" := PInt 10]> {["max_temp" := PInt 30]}))).

Definition google_record : State :=
  mkState "heat"
    (<["hvac_modes" := PList [PStr "heat"; PStr "off"]]>
       (<["fan_mode" := PStr "low"]>
          (<["fan_modes" := PList [PStr "low"; PStr "high"]]>
             {["current_humidity" := PInt 45]}))).

Definition scenario : HomeAssistant :=
  with_states (<["climate.matter" := matter_record]>
                 {["climate.google" := google_record]}).

(** The scenario on a host whose dispatcher refuses every call. *)
Definition unserved : HomeAssistant :=
  set_services (fun _ => Raised (HostError "service not found")) scenario.

(** A source record that reports the sentinel state. *)
Definition down_record : State := mkState "unavailable" ∅.

(** The registry of the scenario with the secondary source down. *)
Definition google_down : HomeAssistant :=
  with_states (<["climate.matter" := matter_record]>
                 {["climate.google" := down_record]}).

(** The keyword under which the host passes the target temperature. *)
Definition HA_ATTR_TEMPERATURE : string := "temperature".

Definition kwargs_21_5 : gmap string pyval :=
  {["temperature" := PFloat 21.5%float]}.

(** Calls on an entity before it is detached ... *)
Definition busy_day : list op :=
  [ Attach;
    Read CurrentTemperature;
    SetTemperature kwargs_21_5;
    SourceChanged "climate.matter" (Some down_record);
    SourceChanged "climate.matter" (Some matter_record);
    SetHvacMode (PStr "off") ].


(** ** Notions used in the statements *)

(** The accessor table of the specification: the value of attribute [key] in
    the record of [id], and [fallback] when the record or the attribute is
    absent. *)
Definition table_entry (registry : gmap string State) (id key : string)
    (fallback : pyval) : pyval :=
  match registry !! id with
  | Some st =>
      match attributes st !! key with
      | Some v => v
      | None => fallback
      end
  | None => fallback
  end.

(** The re-publishes a computation adds when run on [h]. *)
Definition published_by {A : Type} (c : M A) (h : HomeAssistant) : list string :=
  drop (length (state_writes h)) (state_writes (c h).2).

(** The service calls a computation adds when run on [h]. *)
Definition called_by {A : Type} (c : M A) (h : HomeAssistant) : list ServiceCall :=
  drop (length (service_calls h)) (service_calls (c h).2).

(** The payload of a forwarded command: the addressed entity and one value. *)
Definition payload (entity_id key : string) (v : pyval) : gmap string pyval :=
  <[key := v]> {["entity_id" := PStr entity_id]}.

(** The event helper hands out each handle once: every registered handle is
    below the next one. *)
Definition host_wf (h : HomeAssistant) : bool :=
  forallb (fun l => Nat.ltb (handle l) (next_handle h)) (listeners h).

(** No subscription of the host fires the handler of the entity with this
    unique id. *)
Definition no_listener_of (unique_id : string) (h : HomeAssistant) : bool :=
  forallb (fun l => negb (String.eqb (receiver (action l)) unique_id)) (listeners h).


Definition is_detach (o : op) : bool :=
  match o with Detach => true | _ => false end.

Definition none_of (p : op -> bool) (ops : list op) : bool :=
  forallb (fun o => negb (p o)) ops.

(** The entity's bookkeeping agrees with the host: the stored handles are
    distinct and registered, and every subscription firing the entity's
    handler is among them. *)
Definition tracks (self : NestMattersClimate) (h : HomeAssistant) : Prop :=
  NoDup (_remove_listeners self) /\
  (forall k, k ∈ _remove_listeners self -> registered k h = true) /\
  (forall l, l ∈ listeners h ->
             receiver (action l) = _attr_unique_id self ->
             handle l ∈ _remove_listeners self).

(** Two entity values that differ at most in their stored handles. *)
Definition same_identity (p q : NestMattersClimate) : Prop :=
  _attr_name p = _attr_name q /\
  _matter_entity_id p = _matter_entity_id q /\
  _google_entity_id p = _google_entity_id q /\
  _entry_id p = _entry_id q /\
  _attr_unique_id p = _attr_unique_id q /\
  _attr_temperature_unit p = _attr_temperature_unit q /\
  _attr_supported_features p = _attr_supported_features q.

(** The event helper's part of the host is the same in both. *)
Definition same_bus (h h' : HomeAssistant) : Prop :=
  listeners h' = listeners h /\ next_handle h' = next_handle h.

(** How often the entity with this unique id was re-published. *)
Definition writes_of (unique_id : string) (h : HomeAssistant) : nat :=
  length (filter (fun u => u = unique_id) (state_writes h)).

(** ** climate.py: setting the platform up *)

(** The config entry handed to the platform, as far as the setup reads it. *)
Record ConfigEntry := mkEntry { entry_id : string }.

(** What [async_setup_entry] comes to: the list it hands to
    [async_add_entities], or the [KeyError] of a failed subscript. *)
Inductive setup_outcome :=
| Added (entities : list NestMattersClimate)
| KeyError (key : string).

(** [async_setup_entry], with [hass.data] passed as [data]: the subscripts
    [hass.data[DOMAIN][config_entry.entry_id]], then the constructor's
    arguments from left to right, then one call of [async_add_entities]. *)
Definition async_setup_entry
    (data : gmap string (gmap string (gmap string string)))
    (config_entry : ConfigEntry) : setup_outcome :=
  match data !! const.DOMAIN with
  | None => KeyError const.DOMAIN
  | Some by_entry =>
      match by_entry !! entry_id config_entry with
      | None => KeyError (entry_id config_entry)
      | Some config =>
          match config !! const.CONF_NAME with
          | None => KeyError const.CONF_NAME
          | Some name =>
              match config !! const.CONF_MATTER_ENTITY with
              | None => KeyError const.CONF_MATTER_ENTITY
              | Some matter =>
                  match config !! const.CONF_GOOGLE_ENTITY with
                  | None => KeyError const.CONF_GOOGLE_ENTITY
                  | Some google =>
                      Added [__init__ name matter google (entry_id config_entry)]
                  end
              end
          end
      end
  end.

(** ** Notions used in the further statements *)

(** The service call a call on the entity forwards, if any. *)
Definition forwarded (attr_temperature : string) (self : NestMattersClimate)
    (o : op) : list ServiceCall :=
  match o with
  | SetTemperature kwargs =>
      match dict_get kwargs attr_temperature with
      | PNone => []
      | t => [mkCall "climate" "set_temperature"
                (payload (_matter_entity_id self) "temperature" t)]
      end
  | SetHvacMode mode =>
      [mkCall "climate" "set_hvac_mode"
         (payload (_google_entity_id self) "hvac_mode" mode)]
  | SetFanMode mode =>
      [mkCall "climate" "set_fan_mode"
         (payload (_google_entity_id self) "fan_mode" mode)]
  | _ => []
  end.

(** Which source record an accessor looks up. *)
Definition reads_primary (a : accessor) : bool :=
  match a with
  | CurrentTemperature | TargetTemperature | MinTemp | MaxTemp | Available => true
  | _ => false
  end.

Definition reads_secondary (a : accessor) : bool :=
  match a with
  | HvacMode | HvacModes | FanMode | FanModes | CurrentHumidity | Available => true
  | _ => false
  end.

(** A host that lets an unsubscribe callable be invoked again. *)
Definition tolerant (remove_stale : nat -> M unit) : Prop :=
  forall k h, registered k h = false -> remove_stale k h = (Returned tt, h).


(** A host whose unsubscribe callables raise when invoked again, leaving the
    host as it was. *)
Definition raises_on_stale (remove_stale : nat -> M unit) : Prop :=
  forall k h, registered k h = false -> exists x, remove_stale k h = (Raised x, h).

(** Every subscription that fires the entity's handler has its handle
    stored in the entity. *)
Definition covers (self : NestMattersClimate) (h : HomeAssistant) : Prop :=
  forall l, l ∈ listeners h ->
            receiver (action l) = _attr_unique_id self ->
            handle l ∈ _remove_listeners self.

(** Every subscription behind a stored handle fires the entity's handler. *)
Definition owned (self : NestMattersClimate) (h : HomeAssistant) : Prop :=
  forall l, l ∈ listeners h ->
            handle l ∈ _remove_listeners self ->
            receiver (action l) = _attr_unique_id self.

(** A second entity on the same primary source, and the scenario's host
    after that entity was attached. *)
Definition bedroom : NestMattersClimate :=
  __init__ "Bedroom" "climate.matter" "climate.bedroom" "e2".

Definition shared_host : HomeAssistant :=
  (async_added_to_hass bedroom scenario).2.

(** A history with a detach in the middle. *)
Definition reattach_day : list op :=
  [ Attach;
    SourceChanged "climate.google" (Some down_record);
    Detach;
    Attach;
    SetFanMode (PStr "low");
    Attach ].

(** A [hass.data] with one configured entry. *)
Definition hallway_config : gmap string string :=
  <["name" := "Hallway"]>
    (<["matter_entity" := "climate.matter"]>
       {["google_entity" := "climate.google"]}).

Definition hass_data : gmap string (gmap string (gmap string string)) :=
  {["nest_matters" := {["e1" := hallway_config]}]}.

(** ** Properties *)

Example scenario_reads :
  (current_temperature thermostat scenario).1 = Returned (PFloat 19.5%float) /\
  (target_temperature thermostat scenario).1 = Returned (PInt 21) /\
  (min_temp thermostat scenario).1 = Returned (PInt 10) /\
  (max_temp thermostat scenario).1 = Returned (PInt 30) /\
  (hvac_mode thermostat scenario).1 = Returned (PStr "heat") /\
  (fan_mode thermostat scenario).1 = Returned (PStr "low") /\
  (current_humidity thermostat scenario).1 = Returned (PInt 45) /\
  (available thermostat scenario).1 = Returned true.
Proof. vm_compute. repeat split. Qed.

(** *** The monad on concrete steps *)

Lemma bind_returned {A B : Type} (c : M A) (f : A -> M B) h a h' :
  c h = (Returned a, h') -> (c ≫= f) h = f a h'.
Proof. intros Hc. unfold mbind, M_bind. by rewrite Hc. Qed.

Lemma bind_raised {A B : Type} (c : M A) (f : A -> M B) h e h' :
  c h = (Raised e, h') -> (c ≫= f) h = (Raised e, h').
Proof. intros Hc. unfold mbind, M_bind. by rewrite Hc. Qed.

(** *** Dicts *)

Lemma dict_truthy_false d : dict_truthy d = false -> d = ∅.
Proof.
  unfold dict_truthy. intros H.
  apply negb_false_iff, Nat.eqb_eq in H. by apply map_size_empty_inv.
Qed.

Lemma dict_falsy_lookup d key : dict_truthy d = false -> d !! key = None.
Proof. intros H. rewrite (dict_truthy_false d H). apply lookup_empty. Qed.

Ltac run_accessor :=
  unfold mbind, M_bind, states_get, mret, M_ret, table_entry; simpl;
  repeat match goal with
  | |- context [states ?h !! ?id] => destruct (states h !! id) as [?st|]; simpl
  end.

(** Settles an accessor of the shape "look the record up, guard on the
    attributes, get the key". *)
Ltac attr_accessor :=
  run_accessor; [|done];
  match goal with
  | |- context [dict_truthy ?d] =>
      let E := fresh "E" in
      destruct (dict_truthy d) eqn:E; simpl; [done|];
      by rewrite (dict_falsy_lookup _ _ E)
  end.

(** *** What each accessor returns *)

Lemma current_temperature_run self h :
  current_temperature self h
  = (Returned (table_entry (states h) (_matter_entity_id self)
                 "current_temperature" PNone), h).
Proof. unfold current_temperature. attr_accessor. Qed.

Lemma target_temperature_run self h :
  target_temperature self h
  = (Returned (table_entry (states h) (_matter_entity_id self)
                 "temperature" PNone), h).
Proof. unfold target_temperature. attr_accessor. Qed.

Lemma hvac_mode_run self h :
  hvac_mode self h
  = (Returned (match states h !! _google_entity_id self with
               | Some st => PStr (state st)
               | None => PNone
               end), h).
Proof. unfold hvac_mode. by run_accessor. Qed.

Lemma hvac_modes_run self h :
  hvac_modes self h
  = (Returned (table_entry (states h) (_google_entity_id self)
                 "hvac_modes" (PList [])), h).
Proof. unfold hvac_modes. attr_accessor. Qed.

Lemma fan_mode_run self h :
  fan_mode self h
  = (Returned (table_entry (states h) (_google_entity_id self)
                 "fan_mode" PNone), h).
Proof. unfold fan_mode. attr_accessor. Qed.

Lemma fan_modes_run self h :
  fan_modes self h
  = (Returned (table_entry (states h) (_google_entity_id self)
                 "fan_modes" (PList [])), h).
Proof. unfold fan_modes. attr_accessor. Qed.

Lemma current_humidity_run self h :
  current_humidity self h
  = (Returned (table_entry (states h) (_google_entity_id self)
                 "current_humidity" PNone), h).
Proof. unfold current_humidity. attr_accessor. Qed.

Lemma min_temp_run self h :
  min_temp self h
  = (Returned (table_entry (states h) (_matter_entity_id self)
                 "min_temp" (PInt 7)), h).
Proof. unfold min_temp. attr_accessor. Qed.

Lemma max_temp_run self h :
  max_temp self h
  = (Returned (table_entry (states h) (_matter_entity_id self)
                 "max_temp" (PInt 35)), h).
Proof. unfold max_temp. attr_accessor. Qed.

Lemma available_run self h :
  available self h
  = (Returned (present_and_up (states h !! _matter_entity_id self)
               && present_and_up (states h !! _google_entity_id self)), h).
Proof. reflexivity. Qed.

Lemma present_and_up_true s :
  present_and_up s = true <-> exists st, s = Some st /\ state st <> "unavailable".
Proof.
  destruct s as [st|]; simpl.
  - rewrite negb_true_iff, String.eqb_neq. split.
    + intros H. by exists st.
    + by intros (st' & [= <-] & H).
  - split; [done|]. by intros (st & H & _).
Qed.

(** C1.  [available] returns normally, leaves the host as it was, and its
    value is true exactly when both source records exist in the registry and
    neither raw state is "unavailable".  In particular it is false whenever
    the primary record is absent or reports "unavailable", whatever the
    secondary is, and true whenever both are present and neither reports
    "unavailable". *)
Theorem available_iff_both_present_and_up self h :
  exists b,
    available self h = (Returned b, h) /\
    (b = true <->
       exists m g,
         states h !! _matter_entity_id self = Some m /\
         states h !! _google_entity_id self = Some g /\
         state m <> "unavailable" /\ state g <> "unavailable") /\
    ((states h !! _matter_entity_id self = None \/
      exists m, states h !! _matter_entity_id self = Some m /\
                state m = "unavailable") -> b = false) /\
    (forall m g,
        states h !! _matter_entity_id self = Some m ->
        states h !! _google_entity_id self = Some g ->
        state m <> "unavailable" -> state g <> "unavailable" -> b = true).
Proof.
  eexists. split; [apply available_run|].
  assert (Hiff :
    present_and_up (states h !! _matter_entity_id self)
    && present_and_up (states h !! _google_entity_id self) = true <->
    exists m g,
      states h !! _matter_entity_id self = Some m /\
      states h !! _google_entity_id self = Some g /\
      state m <> "unavailable" /\ state g <> "unavailable").
  { rewrite andb_true_iff, !present_and_up_true. split.
    - intros [(m & Hm & Hmu) (g & Hg & Hgu)]. by exists m, g.
    - intros (m & g & Hm & Hg & Hmu & Hgu). split; eauto. }
  split; [exact Hiff|]. split.
  - intros Hdown. apply not_true_is_false. rewrite Hiff.
    intros (m & g & Hm & _ & Hmu & _).
    destruct Hdown as [Hnone | (m' & Hm' & Hdown)]; congruence.
  - intros m g Hm Hg Hmu Hgu. apply Hiff. by exists m, g.
Qed.

(** C2.  Each read accessor returns normally, leaves the host as it was, and
    yields the attribute of its designated source named in the table, or the
    fallback when the record or the attribute is absent; [hvac_mode] yields
    the raw state of the secondary record, or None when it is absent. *)
Theorem accessors_follow_table self h :
  let primary := _matter_entity_id self in
  let secondary := _google_entity_id self in
  current_temperature self h
    = (Returned (table_entry (states h) primary "current_temperature" PNone), h) /\
  target_temperature self h
    = (Returned (table_entry (states h) primary "temperature" PNone), h) /\
  hvac_mode self h
    = (Returned (match states h !! secondary with
                 | Some st => PStr (state st)
                 | None => PNone
                 end), h) /\
  hvac_modes self h
    = (Returned (table_entry (states h) secondary "hvac_modes" (PList [])), h) /\
  fan_mode self h
    = (Returned (table_entry (states h) secondary "fan_mode" PNone), h) /\
  fan_modes self h
    = (Returned (table_entry (states h) secondary "fan_modes" (PList [])), h) /\
  current_humidity self h
    = (Returned (table_entry (states h) secondary "current_humidity" PNone), h).
Proof.
  simpl. repeat split.
  - apply current_temperature_run.
  - apply target_temperature_run.
  - apply hvac_mode_run.
  - apply hvac_modes_run.
  - apply fan_mode_run.
  - apply fan_modes_run.
  - apply current_humidity_run.
Qed.

(** C7.  When the primary record carries [min_temp] ([max_temp]), the
    accessor returns that value; when the record or the attribute is absent
    it returns exactly 7 (exactly 35).  The host is left as it was. *)
Theorem temp_limits_from_primary_or_default self h :
  (forall st v,
      states h !! _matter_entity_id self = Some st ->
      attributes st !! "min_temp" = Some v ->
      min_temp self h = (Returned v, h)) /\
  (forall st v,
      states h !! _matter_entity_id self = Some st ->
      attributes st !! "max_temp" = Some v ->
      max_temp self h = (Returned v, h)) /\
  ((states h !! _matter_entity_id self = None \/
    exists st, states h !! _matter_entity_id self = Some st /\
               attributes st !! "min_temp" = None) ->
   min_temp self h = (Returned (PInt 7), h)) /\
  ((states h !! _matter_entity_id self = None \/
    exists st, states h !! _matter_entity_id self = Some st /\
               attributes st !! "max_temp" = None) ->
   max_temp self h = (Returned (PInt 35), h)).
Proof.
  rewrite min_temp_run, max_temp_run. unfold table_entry.
  repeat split.
  - intros st v -> ->. done.
  - intros st v -> ->. done.
  - intros [-> | (st & -> & ->)]; done.
  - intros [-> | (st & -> & ->)]; done.
Qed.

(** C10.  When the secondary record exists and its raw state is
    "unavailable", [hvac_mode] returns the string "unavailable", not None,
    while [available] returns false. *)
Theorem hvac_mode_reports_unavailable_state self h g :
  states h !! _google_entity_id self = Some g ->
  state g = "unavailable" ->
  hvac_mode self h = (Returned (PStr "unavailable"), h) /\
  PStr "unavailable" <> PNone /\
  available self h = (Returned false, h).
Proof.
  intros Hg Hdown. rewrite hvac_mode_run, available_run, Hg, <- Hdown.
  repeat split; [done|]. simpl. rewrite Hdown. simpl.
  by rewrite andb_false_r.
Qed.

(** *** Forwarded commands *)

Section Commands.

Variable ATTR_TEMPERATURE : string.

(** C3.  With the temperature absent (no such keyword, or None) the call
    returns at once and the host is exactly as before: no service call, no
    log record.  With a value present exactly one service call is issued,
    "set_temperature" in domain "climate", addressed to the primary source
    and carrying that value; the call ends as the dispatcher answers it (an
    error of the dispatcher is raised to the caller), and registry,
    listeners and re-publishes are untouched either way. *)
Theorem set_temperature_forwards_to_primary self kwargs h :
  ((kwargs !! ATTR_TEMPERATURE = None \/
    kwargs !! ATTR_TEMPERATURE = Some PNone) ->
   async_set_temperature ATTR_TEMPERATURE self kwargs h = (Returned tt, h)) /\
  (forall v,
      kwargs !! ATTR_TEMPERATURE = Some v -> v <> PNone ->
      exists h',
        async_set_temperature ATTR_TEMPERATURE self kwargs h
        = (services h
             (mkCall "climate" "set_temperature"
                (payload (_matter_entity_id self) "temperature" v)), h') /\
        service_calls h'
        = service_calls h
          ++ [mkCall "climate" "set_temperature"
                (payload (_matter_entity_id self) "temperature" v)] /\
        called_by (async_set_temperature ATTR_TEMPERATURE self kwargs) h
        = [mkCall "climate" "set_temperature"
             (payload (_matter_entity_id self) "temperature" v)] /\
        states h' = states h /\ listeners h' = listeners h /\
        next_handle h' = next_handle h /\ state_writes h' = state_writes h).
Proof.
  unfold async_set_temperature, dict_get, called_by. split.
  - intros [-> | ->]; simpl; by destruct h.
  - intros v -> Hv. simpl.
    destruct v; try congruence; simpl; eexists; (split; [reflexivity|]);
      simpl; rewrite drop_app_length; done.
Qed.

End Commands.

(** C8.  For every mode value, [async_set_hvac_mode] issues exactly one
    service call, "set_hvac_mode" in domain "climate", addressed to the
    secondary source and carrying that mode, and [async_set_fan_mode] exactly
    one "set_fan_mode" call addressed to the secondary source and carrying
    that mode.  No value is checked locally: the call is issued whatever the
    mode, and ends as the dispatcher answers it.  Registry, listeners and
    re-publishes are untouched. *)
Theorem mode_setters_forward_to_secondary self mode h :
  (exists h',
      async_set_hvac_mode self mode h
      = (services h
           (mkCall "climate" "set_hvac_mode"
              (payload (_google_entity_id self) "hvac_mode" mode)), h') /\
      called_by (async_set_hvac_mode self mode) h
      = [mkCall "climate" "set_hvac_mode"
           (payload (_google_entity_id self) "hvac_mode" mode)] /\
      service_calls h' = service_calls h ++ called_by (async_set_hvac_mode self mode) h /\
      states h' = states h /\ listeners h' = listeners h /\
      next_handle h' = next_handle h /\ state_writes h' = state_writes h) /\
  (exists h',
      async_set_fan_mode self mode h
      = (services h
           (mkCall "climate" "set_fan_mode"
              (payload (_google_entity_id self) "fan_mode" mode)), h') /\
      called_by (async_set_fan_mode self mode) h
      = [mkCall "climate" "set_fan_mode"
           (payload (_google_entity_id self) "fan_mode" mode)] /\
      service_calls h' = service_calls h ++ called_by (async_set_fan_mode self mode) h /\
      states h' = states h /\ listeners h' = listeners h /\
      next_handle h' = next_handle h /\ state_writes h' = state_writes h).
Proof.
  unfold called_by. split; eexists; (split; [reflexivity|]); simpl;
    rewrite drop_app_length; done.
Qed.

(** *** The event helper *)

Lemma set_listeners_same h : set_listeners (listeners h) h = h.
Proof. by destruct h. Qed.

Lemma registered_true k h :
  registered k h = true <-> exists l, l ∈ listeners h /\ handle l = k.
Proof.
  unfold registered. rewrite existsb_exists. split.
  - intros (l & Hin & Heq). exists l. split; [by apply list_elem_of_In|].
    by apply Nat.eqb_eq.
  - intros (l & Hin & Heq). exists l. split; [by apply list_elem_of_In|].
    by apply Nat.eqb_eq.
Qed.

Lemma no_listener_of_spec uid h :
  no_listener_of uid h = true <->
  forall l, l ∈ listeners h -> receiver (action l) <> uid.
Proof.
  unfold no_listener_of. rewrite forallb_forall. split.
  - intros H l Hin. apply list_elem_of_In, H in Hin.
    by apply negb_true_iff, String.eqb_neq in Hin.
  - intros H l Hin. apply negb_true_iff, String.eqb_neq, H.
    by apply list_elem_of_In.
Qed.

Lemma host_wf_spec h :
  host_wf h = true <->
  forall l, l ∈ listeners h -> (handle l < next_handle h)%nat.
Proof.
  unfold host_wf. rewrite forallb_forall. split.
  - intros H l Hin. apply list_elem_of_In, H in Hin. by apply Nat.ltb_lt.
  - intros H l Hin. apply Nat.ltb_lt, H. by apply list_elem_of_In.
Qed.

Lemma filter_keeps_all {A : Type} (P : A -> Prop) `{forall x, Decision (P x)}
    (l : list A) :
  (forall x, x ∈ l -> P x) -> filter P l = l.
Proof.
  induction l as [|x l IH]; intros Hall; [done|].
  rewrite filter_cons_True by (apply Hall, elem_of_cons; by left).
  f_equal. apply IH. intros y Hy. apply Hall, elem_of_cons. by right.
Qed.

(** The handlers of a dispatch all return, each adding one re-publish. *)
Lemma handlers_run event ls h :
  for_each (fun l => _handle_source_state_change (receiver (action l)) event) ls h
  = (Returned tt,
     set_state_writes (state_writes h ++ map (fun l => receiver (action l)) ls) h).
Proof.
  revert h. induction ls as [|l ls IH]; intros h; simpl.
  - unfold mret, M_ret. rewrite app_nil_r. by destruct h.
  - unfold mbind, M_bind, _handle_source_state_change, async_write_ha_state.
    rewrite IH. simpl. unfold set_state_writes. simpl.
    by rewrite <- app_assoc.
Qed.

Lemma fire_state_changed_run event h :
  fire_state_changed event h
  = (Returned tt,
     set_state_writes
       (state_writes h
        ++ map (fun l => receiver (action l))
             (filter (fun l => ev_entity_id event ∈ entity_ids l) (listeners h))) h).
Proof. unfold fire_state_changed. apply handlers_run. Qed.

Lemma source_state_changed_run id new h :
  source_state_changed id new h
  = (Returned tt,
     set_state_writes
       (state_writes h
        ++ map (fun l => receiver (action l))
             (filter (fun l => id ∈ entity_ids l) (listeners h)))
       (set_states (partial_alter (fun _ => new) id (states h)) h)).
Proof. unfold source_state_changed. by rewrite fire_state_changed_run. Qed.

Lemma published_by_notification id new h :
  published_by (source_state_changed id new) h
  = map (fun l => receiver (action l))
      (filter (fun l => id ∈ entity_ids l) (listeners h)).
Proof.
  unfold published_by. rewrite source_state_changed_run. simpl.
  apply drop_app_length.
Qed.

(** *** Reads leave the host alone *)

Lemma read_host a self h : (read a self h).2 = h.
Proof.
  destruct a; simpl;
    rewrite ?current_temperature_run, ?target_temperature_run, ?hvac_mode_run,
      ?hvac_modes_run, ?fan_mode_run, ?fan_modes_run, ?current_humidity_run,
      ?min_temp_run, ?max_temp_run; done.
Qed.

(** A read is settled by the two source ids and the registry. *)
Lemma read_value a self1 self2 h1 h2 :
  _matter_entity_id self1 = _matter_entity_id self2 ->
  _google_entity_id self1 = _google_entity_id self2 ->
  states h1 = states h2 ->
  (read a self1 h1).1 = (read a self2 h2).1.
Proof.
  intros Hm Hg Hs.
  destruct a; simpl;
    rewrite ?current_temperature_run, ?target_temperature_run, ?hvac_mode_run,
      ?hvac_modes_run, ?fan_mode_run, ?fan_modes_run, ?current_humidity_run,
      ?min_temp_run, ?max_temp_run; simpl; by rewrite ?Hm, ?Hg, ?Hs.
Qed.

(** *** Attach and detach *)

Lemma attach_run self h :
  async_added_to_hass self h
  = (Returned (set_remove_listeners (_remove_listeners self ++ [next_handle h]) self),
     set_next_handle (S (next_handle h))
       (set_listeners
          (listeners h
           ++ [mkListener (next_handle h)
                 [_matter_entity_id self; _google_entity_id self]
                 (mkBound (_attr_unique_id self))]) h)).
Proof. reflexivity. Qed.

Lemma tracks_init name m g e h :
  no_listener_of (_attr_unique_id (__init__ name m g e)) h = true ->
  tracks (__init__ name m g e) h.
Proof.
  intros Hno. rewrite no_listener_of_spec in Hno.
  split; [constructor|]. split.
  - intros k Hk. by apply elem_of_nil in Hk.
  - intros l Hl Hr. by destruct (Hno l Hl).
Qed.

Lemma tracks_attach self h :
  host_wf h = true -> tracks self h ->
  host_wf (async_added_to_hass self h).2 = true /\
  tracks (set_remove_listeners (_remove_listeners self ++ [next_handle h]) self)
    (async_added_to_hass self h).2.
Proof.
  rewrite attach_run. simpl. intros Hwf (Hnd & Hreg & Hown).
  rewrite host_wf_spec in Hwf. split.
  - apply host_wf_spec. simpl. intros l [Hl | Hl]%elem_of_app.
    + specialize (Hwf l Hl). lia.
    + apply list_elem_of_singleton in Hl. subst l. simpl. lia.
  - split; [|split]; simpl.
    + apply NoDup_app. split; [done|]. split; [|apply NoDup_singleton].
      intros k Hk Hk'. apply list_elem_of_singleton in Hk'. subst k.
      apply Hreg, registered_true in Hk as (l & Hl & Heq).
      specialize (Hwf l Hl). lia.
    + intros k [Hk | Hk]%elem_of_app; apply registered_true; simpl.
      * apply Hreg, registered_true in Hk as (l & Hl & Heq).
        exists l. split; [|done]. apply elem_of_app. by left.
      * apply list_elem_of_singleton in Hk. subst k.
        eexists. split; [apply elem_of_app; right; apply list_elem_of_singleton; done|].
        done.
    + intros l [Hl | Hl]%elem_of_app Hr; apply elem_of_app.
      * left. by apply Hown.
      * right. apply list_elem_of_singleton in Hl. subst l. simpl.
        by apply list_elem_of_singleton.
Qed.

Section Lifecycle.

Variable ATTR_TEMPERATURE : string.
Variable remove_stale : nat -> M unit.

Lemma remove_listener_live k h :
  registered k h = true ->
  remove_listener remove_stale k h
  = (Returned tt, set_listeners (drop_listener k (listeners h)) h).
Proof. intros H. unfold remove_listener. by rewrite H. Qed.

Lemma remove_listener_gone k h :
  registered k h = false ->
  remove_listener remove_stale k h = remove_stale k h.
Proof. intros H. unfold remove_listener. by rewrite H. Qed.

(** Detaching an entity whose handles are distinct and registered invokes
    no stale callable: it returns, and exactly the subscriptions behind the
    stored handles are gone. *)
Lemma detach_tracked ks h :
  NoDup ks ->
  (forall k, k ∈ ks -> registered k h = true) ->
  for_each (remove_listener remove_stale) ks h
  = (Returned tt,
     set_listeners (filter (fun l => handle l ∉ ks) (listeners h)) h).
Proof.
  revert h. induction ks as [|k ks IH]; intros h Hnd Hreg.
  - simpl. unfold mret, M_ret. f_equal.
    rewrite <- (set_listeners_same h) at 1. f_equal.
    symmetry. apply filter_keeps_all. intros l _ Hin.
    by apply elem_of_nil in Hin.
  - apply NoDup_cons in Hnd as [Hk Hnd]. simpl.
    erewrite bind_returned;
      [|apply remove_listener_live, Hreg, elem_of_cons; by left].
    rewrite IH; [| done |].
    + simpl. unfold set_listeners, drop_listener. simpl. f_equal. f_equal.
      rewrite list_filter_filter. apply list_filter_iff. intros l.
      rewrite not_elem_of_cons. tauto.
    + intros k' Hk'. apply registered_true. simpl.
      assert (Hr : registered k' h = true)
        by (apply Hreg, elem_of_cons; by right).
      apply registered_true in Hr as (l & Hl & Heq).
      exists l. split; [|done]. apply list_elem_of_filter. split; [|done].
      intros Hkk. apply Hk. by rewrite <- Hkk, Heq.
Qed.

End Lifecycle.

(** *** Sequences of calls *)

Lemma tracks_same_bus self h h' :
  same_bus h h' -> host_wf h = true -> tracks self h ->
  host_wf h' = true /\ tracks self h'.
Proof.
  intros [Hl Hn] Hwf (Hnd & Hreg & Hown). split.
  - unfold host_wf. by rewrite Hl, Hn.
  - split; [done|]. split.
    + intros k Hk. unfold registered. rewrite Hl. by apply Hreg.
    + intros l. rewrite Hl. apply Hown.
Qed.

Lemma writes_of_app uid h ws :
  writes_of uid (set_state_writes (state_writes h ++ ws) h)
  = (writes_of uid h + length (filter (fun u => u = uid) ws))%nat.
Proof. unfold writes_of. simpl. by rewrite filter_app, length_app. Qed.


Section Runs.

Variable ATTR_TEMPERATURE : string.
Variable remove_stale : nat -> M unit.

Local Abbreviation step := (step ATTR_TEMPERATURE remove_stale).
Local Abbreviation run := (run ATTR_TEMPERATURE remove_stale).
Local Abbreviation detach := (async_will_remove_from_hass remove_stale).

Lemma run_cons o ops w : run (o :: ops) w = run ops (step o w).
Proof. reflexivity. Qed.

Lemma set_temperature_bus self kwargs h :
  same_bus h (async_set_temperature ATTR_TEMPERATURE self kwargs h).2 /\
  states (async_set_temperature ATTR_TEMPERATURE self kwargs h).2 = states h /\
  state_writes (async_set_temperature ATTR_TEMPERATURE self kwargs h).2
  = state_writes h.
Proof.
  unfold async_set_temperature, same_bus.
  by destruct (is_None (dict_get kwargs ATTR_TEMPERATURE)).
Qed.

(** A call keeps the entity's identity; only attach changes the entity at
    all, and only its stored handles. *)
Lemma step_identity o w : same_identity (step o w).1 w.1.
Proof.
  destruct w as [self h]. by destruct o.
Qed.

Lemma run_identity ops w : same_identity (run ops w).1 w.1.
Proof.
  revert w. induction ops as [|o ops IH]; intros w; [done|].
  rewrite run_cons.
  destruct (IH (step o w)) as (H1 & H2 & H3 & H4 & H5 & H6 & H7).
  destruct (step_identity o w) as (G1 & G2 & G3 & G4 & G5 & G6 & G7).
  unfold same_identity. by rewrite H1, H2, H3, H4, H5, H6, H7.
Qed.

(** Every call but detach keeps the bookkeeping in step with the host. *)
Lemma step_tracks o w :
  is_detach o = false ->
  host_wf w.2 = true -> tracks w.1 w.2 ->
  host_wf (step o w).2 = true /\ tracks (step o w).1 (step o w).2.
Proof.
  destruct w as [self h]. intros Ho Hwf Htr. simpl in Hwf, Htr.
  destruct o; simpl; try done.
  - destruct (tracks_attach self h Hwf Htr) as [H1 H2].
    rewrite attach_run in *. done.
  - apply (tracks_same_bus self h); [|done..].
    rewrite source_state_changed_run. done.
  - apply (tracks_same_bus self h); [|done..].
    apply set_temperature_bus.
  - rewrite read_host. done.
Qed.

Lemma run_tracks ops w :
  none_of is_detach ops = true ->
  host_wf w.2 = true -> tracks w.1 w.2 ->
  host_wf (run ops w).2 = true /\ tracks (run ops w).1 (run ops w).2.
Proof.
  revert w. induction ops as [|o ops IH]; intros w Hops Hwf Htr; [done|].
  simpl in Hops. apply andb_true_iff in Hops as [Ho Hops].
  apply negb_true_iff in Ho. rewrite run_cons.
  destruct (step_tracks o w Ho Hwf Htr) as [H1 H2]. by apply IH.
Qed.



Lemma step_detach w : step Detach w = (w.1, (detach w.1 w.2).2).
Proof. by destruct w. Qed.

(** Detaching an entity whose bookkeeping is in step with the host returns
    and leaves no subscription that fires the entity's handler. *)
Lemma detach_of_tracked self h :
  tracks self h ->
  detach self h
  = (Returned tt,
     set_listeners
       (filter (fun l => handle l ∉ _remove_listeners self) (listeners h)) h) /\
  no_listener_of (_attr_unique_id self) (detach self h).2 = true.
Proof.
  intros (Hnd & Hreg & Hown).
  assert (Hrun := detach_tracked remove_stale (_remove_listeners self) h Hnd Hreg).
  unfold async_will_remove_from_hass. rewrite Hrun. split; [done|].
  apply no_listener_of_spec. simpl.
  intros l [Hout Hl]%list_elem_of_filter Hr. apply Hout. by apply Hown.
Qed.

End Runs.

(** Invoking callables whose subscriptions are all gone on a host that lets
    such invocations pass changes nothing. *)
Lemma for_each_gone (remove_stale : nat -> M unit) ks h :
  (forall k h, registered k h = false -> remove_stale k h = (Returned tt, h)) ->
  (forall k, k ∈ ks -> registered k h = false) ->
  for_each (remove_listener remove_stale) ks h = (Returned tt, h).
Proof.
  intros Hpass. induction ks as [|k ks IH]; intros Hgone; [done|]. simpl.
  assert (Hk : registered k h = false) by (apply Hgone, elem_of_cons; by left).
  erewrite bind_returned;
    [|rewrite (remove_listener_gone remove_stale k h Hk); by apply Hpass].
  apply IH. intros k' Hk'. apply Hgone, elem_of_cons. by right.
Qed.

(** *** Listeners over the life of an entity *)

(** C6, as the code has it.  Attach returns after subscribing one listener
    that covers both source ids and fires the entity's handler, and keeps its
    handle; from then on a state transition of either source re-publishes the
    entity, and a transition of any other entity does not through this
    listener.  The update that follows the subscription does nothing, so
    attach itself re-publishes nothing and leaves registry and service calls
    as they were. *)
Theorem attach_subscribes_and_publishes_nothing self h :
  exists self' h',
    async_added_to_hass self h = (Returned self', h') /\
    listeners h'
    = listeners h
      ++ [mkListener (next_handle h)
            [_matter_entity_id self; _google_entity_id self]
            (mkBound (_attr_unique_id self))] /\
    _remove_listeners self' = _remove_listeners self ++ [next_handle h] /\
    same_identity self' self /\
    async_update self' h' = (Returned tt, h') /\
    published_by (async_added_to_hass self) h = [] /\
    states h' = states h /\ service_calls h' = service_calls h /\
    (forall id new,
        id = _matter_entity_id self \/ id = _google_entity_id self ->
        published_by (source_state_changed id new) h'
        = published_by (source_state_changed id new) h ++ [_attr_unique_id self]) /\
    (forall id new,
        id <> _matter_entity_id self -> id <> _google_entity_id self ->
        published_by (source_state_changed id new) h'
        = published_by (source_state_changed id new) h).
Proof.
  eexists _, _. split; [apply attach_run|]. simpl.
  repeat (split; [done|]).
  split; [|split; [done|split; [done|split]]].
  - unfold published_by. rewrite attach_run. simpl. apply drop_all.
  - intros id new Hid. rewrite !published_by_notification. simpl.
    rewrite filter_app, map_app. f_equal.
    rewrite filter_cons_True; [done|]. simpl.
    destruct Hid as [-> | ->]; [apply elem_of_cons; by left|].
    apply elem_of_cons. right. apply elem_of_cons. by left.
  - intros id new Hm Hg. rewrite !published_by_notification. simpl.
    rewrite filter_app, map_app.
    rewrite filter_cons_False; [by rewrite app_nil_r|]. simpl.
    intros [-> | [-> | Hin%elem_of_nil]%elem_of_cons]%elem_of_cons; done.
Qed.

(** ** Further properties of the code *)

(** *** Construction and setup *)

Lemma append_inj_r (p s1 s2 : string) :
  String.append p s1 = String.append p s2 -> s1 = s2.
Proof. induction p as [|c p IH]; simpl; [done|]. intros [= H]. by apply IH. Qed.

(** X1.  The unique id of an entity is "nest_matters_" followed by its entry
    id, so two entities have the same unique id exactly when they were built
    for the same entry, whatever their names and sources. *)
Theorem unique_id_names_the_entry name1 m1 g1 e1 name2 m2 g2 e2 :
  _attr_unique_id (__init__ name1 m1 g1 e1) = String.append "nest_matters_" e1 /\
  (_attr_unique_id (__init__ name1 m1 g1 e1)
   = _attr_unique_id (__init__ name2 m2 g2 e2) <-> e1 = e2).
Proof.
  split; [reflexivity|]. split.
  - intros H. by apply (append_inj_r "nest_matters_").
  - by intros ->.
Qed.

(** X2.  Setup hands entities over exactly when [hass.data] holds a config
    for the entry under the domain and the config has the three keys; then it
    hands over one entity, built from the configured name and sources and the
    entry id, with no listener stored yet. *)
Theorem setup_adds_one_configured_entity data config_entry entities :
  async_setup_entry data config_entry = Added entities <->
  exists by_entry config name matter google,
    data !! "nest_matters" = Some by_entry /\
    by_entry !! entry_id config_entry = Some config /\
    config !! "name" = Some name /\
    config !! "matter_entity" = Some matter /\
    config !! "google_entity" = Some google /\
    entities
    = [mkClimate name matter google (entry_id config_entry)
         (String.append "nest_matters_" (entry_id config_entry))
         CELSIUS [TARGET_TEMPERATURE; FAN_MODE] []].
Proof.
  unfold async_setup_entry, const.DOMAIN, const.CONF_NAME,
    const.CONF_MATTER_ENTITY, const.CONF_GOOGLE_ENTITY. split.
  - destruct (data !! "nest_matters") as [by_entry|] eqn:E1; [|done].
    destruct (by_entry !! entry_id config_entry) as [config|] eqn:E2; [|done].
    destruct (config !! "name") as [name|] eqn:E3; [|done].
    destruct (config !! "matter_entity") as [matter|] eqn:E4; [|done].
    destruct (config !! "google_entity") as [google|] eqn:E5; [|done].
    intros [= <-]. by exists by_entry, config, name, matter, google.
  - intros (by_entry & config & name & matter & google
            & -> & -> & -> & -> & -> & ->). done.
Qed.

(** X3.  A missing key makes setup fail with the [KeyError] of the first
    failing subscript, in the order domain, entry id, "name",
    "matter_entity", "google_entity", and no entity is handed over. *)
Theorem setup_fails_on_first_missing_key data config_entry :
  (data !! "nest_matters" = None ->
   async_setup_entry data config_entry = KeyError "nest_matters") /\
  (forall by_entry,
      data !! "nest_matters" = Some by_entry ->
      (by_entry !! entry_id config_entry = None ->
       async_setup_entry data config_entry = KeyError (entry_id config_entry)) /\
      (forall config,
          by_entry !! entry_id config_entry = Some config ->
          (config !! "name" = None ->
           async_setup_entry data config_entry = KeyError "name") /\
          (is_Some (config !! "name") -> config !! "matter_entity" = None ->
           async_setup_entry data config_entry = KeyError "matter_entity") /\
          (is_Some (config !! "name") -> is_Some (config !! "matter_entity") ->
           config !! "google_entity" = None ->
           async_setup_entry data config_entry = KeyError "google_entity"))).
Proof.
  unfold async_setup_entry, const.DOMAIN, const.CONF_NAME,
    const.CONF_MATTER_ENTITY, const.CONF_GOOGLE_ENTITY.
  split; [by intros ->|]. intros by_entry ->.
  split; [by intros ->|]. intros config ->.
  split; [by intros ->|]. split.
  - by intros [name ->] ->.
  - by intros [name ->] [matter ->] ->.
Qed.

(** X4.  Setup and attach together: for a configured entry, the entity that
    setup hands over subscribes, when attached on any host, one listener to
    exactly the two configured source ids, firing the handler of the entity
    named after the entry, and keeps that one handle. *)
Theorem configured_entity_listens_to_configured_sources
    data config_entry by_entry config name matter google :
  data !! "nest_matters" = Some by_entry ->
  by_entry !! entry_id config_entry = Some config ->
  config !! "name" = Some name ->
  config !! "matter_entity" = Some matter ->
  config !! "google_entity" = Some google ->
  exists entity,
    async_setup_entry data config_entry = Added [entity] /\
    forall h,
      exists entity' h',
        async_added_to_hass entity h = (Returned entity', h') /\
        listeners h'
        = listeners h
          ++ [mkListener (next_handle h) [matter; google]
                (mkBound (String.append "nest_matters_" (entry_id config_entry)))] /\
        _remove_listeners entity' = [next_handle h] /\
        states h' = states h /\ service_calls h' = service_calls h /\
        state_writes h' = state_writes h.
Proof.
  intros H1 H2 H3 H4 H5.
  exists (__init__ name matter google (entry_id config_entry)). split.
  - unfold async_setup_entry, const.DOMAIN, const.CONF_NAME,
      const.CONF_MATTER_ENTITY, const.CONF_GOOGLE_ENTITY.
    by rewrite H1, H2, H3, H4, H5.
  - intros h. eexists _, _. split; [apply attach_run|]. done.
Qed.

(** *** Reads against a changing registry *)

Lemma states_after_change id new h :
  states (source_state_changed id new h).2
  = partial_alter (fun _ => new) id (states h).
Proof. by rewrite source_state_changed_run. Qed.

(** A read looks at the registry only under the source ids it reads. *)
Lemma read_lookup a self h1 h2 :
  (reads_primary a = true ->
   states h1 !! _matter_entity_id self = states h2 !! _matter_entity_id self) ->
  (reads_secondary a = true ->
   states h1 !! _google_entity_id self = states h2 !! _google_entity_id self) ->
  (read a self h1).1 = (read a self h2).1.
Proof.
  intros Hm Hg.
  destruct a; simpl in Hm, Hg; simpl;
    rewrite ?current_temperature_run, ?target_temperature_run, ?hvac_mode_run,
      ?hvac_modes_run, ?fan_mode_run, ?fan_modes_run, ?current_humidity_run,
      ?min_temp_run, ?max_temp_run; unfold table_entry; simpl;
    rewrite ?Hm, ?Hg by done; done.
Qed.

(** X5.  Reads see a source change at once.  After the primary's record is
    replaced, the four primary accessors return the new record's attributes,
    or None, None, 7 and 35 for those it lacks; after the secondary's record
    is replaced, [hvac_mode] returns its state and the four other secondary
    accessors its attributes, or their fallbacks.  After either record is
    removed, the accessors of that source return their fallbacks and
    [available] is false.  Nothing of the registry's earlier content shows. *)
Theorem reads_follow_source_changes self h st :
  let primary := _matter_entity_id self in
  let secondary := _google_entity_id self in
  let value (c : M pyval) id new := (c (source_state_changed id new h).2).1 in
  let up (c : M bool) id new := (c (source_state_changed id new h).2).1 in
  (value (current_temperature self) primary (Some st)
     = Returned (default PNone (attributes st !! "current_temperature")) /\
   value (target_temperature self) primary (Some st)
     = Returned (default PNone (attributes st !! "temperature")) /\
   value (min_temp self) primary (Some st)
     = Returned (default (PInt 7) (attributes st !! "min_temp")) /\
   value (max_temp self) primary (Some st)
     = Returned (default (PInt 35) (attributes st !! "max_temp"))) /\
  (value (hvac_mode self) secondary (Some st) = Returned (PStr (state st)) /\
   value (hvac_modes self) secondary (Some st)
     = Returned (default (PList []) (attributes st !! "hvac_modes")) /\
   value (fan_mode self) secondary (Some st)
     = Returned (default PNone (attributes st !! "fan_mode")) /\
   value (fan_modes self) secondary (Some st)
     = Returned (default (PList []) (attributes st !! "fan_modes")) /\
   value (current_humidity self) secondary (Some st)
     = Returned (default PNone (attributes st !! "current_humidity"))) /\
  (value (current_temperature self) primary None = Returned PNone /\
   value (target_temperature self) primary None = Returned PNone /\
   value (min_temp self) primary None = Returned (PInt 7) /\
   value (max_temp self) primary None = Returned (PInt 35) /\
   up (available self) primary None = Returned false) /\
  (value (hvac_mode self) secondary None = Returned PNone /\
   value (hvac_modes self) secondary None = Returned (PList []) /\
   value (fan_mode self) secondary None = Returned PNone /\
   value (fan_modes self) secondary None = Returned (PList []) /\
   value (current_humidity self) secondary None = Returned PNone /\
   up (available self) secondary None = Returned false).
Proof.
  cbv beta zeta.
  rewrite !current_temperature_run, !target_temperature_run, !hvac_mode_run,
    !hvac_modes_run, !fan_mode_run, !fan_modes_run, !current_humidity_run,
    !min_temp_run, !max_temp_run, !available_run.
  unfold table_entry. simpl. rewrite !states_after_change.
  rewrite !lookup_partial_alter_eq. simpl.
  repeat split; try done. by rewrite andb_false_r.
Qed.

(** X6.  A state change of an entity is invisible to every accessor that
    does not read that entity: a change of any id other than the primary
    leaves the primary accessors' results as they were, a change of any id
    other than the secondary leaves the secondary accessors' results as they
    were, and [available], which reads both, is unchanged by a change of any
    third entity. *)
Theorem reads_ignore_other_entities a self id new h :
  (reads_primary a = true -> id <> _matter_entity_id self) ->
  (reads_secondary a = true -> id <> _google_entity_id self) ->
  (read a self (source_state_changed id new h).2).1 = (read a self h).1.
Proof.
  intros Hm Hg. apply read_lookup; intros Ha; rewrite states_after_change;
    apply lookup_partial_alter_ne; auto.
Qed.

(** X7.  Whenever [available] is true, [hvac_mode] is a string other than
    "unavailable" (never None), and the primary's record is there to read. *)
Theorem available_entity_has_a_mode self h :
  available self h = (Returned true, h) ->
  (exists s, hvac_mode self h = (Returned (PStr s), h) /\ s <> "unavailable") /\
  is_Some (states h !! _matter_entity_id self).
Proof.
  rewrite available_run, hvac_mode_run. intros [= H].
  apply andb_true_iff in H as [Hm Hg].
  apply present_and_up_true in Hm as (m & Hm & _).
  apply present_and_up_true in Hg as (g & Hg & Hup).
  rewrite Hm, Hg. split; [|done]. by exists (state g).
Qed.

(** *** Histories of calls *)

Lemma filter_ext_in {A : Type} (P Q : A -> Prop)
    `{forall x, Decision (P x)} `{forall x, Decision (Q x)} (l : list A) :
  (forall x, x ∈ l -> P x <-> Q x) -> filter P l = filter Q l.
Proof.
  induction l as [|x l IH]; intros Hpq; [done|].
  assert (Hx : P x <-> Q x) by (apply Hpq, elem_of_cons; by left).
  assert (Hl : filter P l = filter Q l).
  { apply IH. intros y Hy. apply Hpq, elem_of_cons. by right. }
  destruct (decide (P x)) as [Hp|Hp].
  - rewrite !filter_cons_True by tauto. by rewrite Hl.
  - rewrite !filter_cons_False by tauto. done.
Qed.

Lemma registered_false k h :
  registered k h = false <-> forall l, l ∈ listeners h -> handle l <> k.
Proof.
  rewrite <- not_true_iff_false, registered_true. split.
  - intros Hno l Hl Heq. apply Hno. by exists l.
  - intros Hall (l & Hl & Heq). by apply (Hall l).
Qed.

(** What attach adds to the re-publishes of a source change. *)
Lemma published_after_attach self h id new :
  published_by (source_state_changed id new) (async_added_to_hass self h).2
  = published_by (source_state_changed id new) h
    ++ (if bool_decide (id ∈ [_matter_entity_id self; _google_entity_id self])
        then [_attr_unique_id self] else []).
Proof.
  rewrite !published_by_notification, attach_run. simpl.
  rewrite filter_app, map_app. f_equal.
  case_bool_decide.
  - by rewrite filter_cons_True.
  - by rewrite filter_cons_False.
Qed.

(** On a tolerant host detach always returns, and what it removes are the
    subscriptions behind the stored handles. *)
Lemma detach_tolerant remove_stale ks h :
  tolerant remove_stale ->
  for_each (remove_listener remove_stale) ks h
  = (Returned tt, set_listeners (filter (fun l => handle l ∉ ks) (listeners h)) h).
Proof.
  intros Htol. revert h. induction ks as [|k ks IH]; intros h.
  - simpl. unfold mret, M_ret. f_equal.
    rewrite <- (set_listeners_same h) at 1. f_equal.
    symmetry. apply filter_keeps_all. intros l _ Hin.
    by apply elem_of_nil in Hin.
  - simpl. destruct (registered k h) eqn:Hk.
    + erewrite bind_returned; [|by apply remove_listener_live].
      rewrite IH. simpl. unfold set_listeners, drop_listener. simpl.
      f_equal. f_equal. rewrite list_filter_filter.
      apply list_filter_iff. intros l. rewrite not_elem_of_cons. tauto.
    + erewrite bind_returned;
        [|rewrite remove_listener_gone by done; by apply Htol].
      rewrite IH. f_equal. f_equal. apply filter_ext_in. intros l Hl.
      rewrite not_elem_of_cons.
      assert (handle l <> k) by (by apply (proj1 (registered_false k h) Hk)).
      tauto.
Qed.

Lemma forwarded_identity attr p q o :
  same_identity p q -> forwarded attr p o = forwarded attr q o.
Proof. intros (_ & Hm & Hg & _). destruct o; simpl; by rewrite ?Hm, ?Hg. Qed.

Section Histories.

Variable ATTR_TEMPERATURE : string.
Variable remove_stale : nat -> M unit.

Local Abbreviation step := (step ATTR_TEMPERATURE remove_stale).
Local Abbreviation run := (run ATTR_TEMPERATURE remove_stale).
Local Abbreviation detach := (async_will_remove_from_hass remove_stale).

(** What one call adds to the call log, detach on a tolerant host
    included. *)
Lemma step_effects o self h :
  is_detach o = false \/ tolerant remove_stale ->
  service_calls (step o (self, h)).2
  = service_calls h ++ forwarded ATTR_TEMPERATURE self o.
Proof.
  intros Hok. destruct o; simpl.
  - by rewrite app_nil_r.
  - destruct Hok as [Hd | Htol]; [done|].
    unfold async_will_remove_from_hass. rewrite detach_tolerant by done.
    simpl. by rewrite app_nil_r.
  - rewrite source_state_changed_run. simpl. by rewrite app_nil_r.
  - unfold async_set_temperature.
    destruct (dict_get kwargs ATTR_TEMPERATURE); simpl; by rewrite ?app_nil_r.
  - done.
  - done.
  - rewrite read_host. by rewrite app_nil_r.
Qed.

Lemma detach_ok_tail o ops :
  none_of is_detach (o :: ops) = true \/ tolerant remove_stale ->
  (is_detach o = false \/ tolerant remove_stale) /\
  (none_of is_detach ops = true \/ tolerant remove_stale).
Proof.
  intros [Hno | Htol]; [|by split; right].
  simpl in Hno. apply andb_true_iff in Hno as [Ho Hops].
  apply negb_true_iff in Ho. by split; left.
Qed.

(** X9.  Over any history of calls the entity issues exactly the service
    calls of its commands, in their order: one per [async_set_hvac_mode] and
    [async_set_fan_mode], one per [async_set_temperature] that carries a
    value, each addressed as the command says.  Attaches, reads, source
    changes and temperature calls without a value issue none, and neither
    does detach (on a host that raises for a stale handle, as long as the
    history has no detach). *)
Theorem history_issues_only_forwarded_commands ops self h :
  none_of is_detach ops = true \/ tolerant remove_stale ->
  service_calls (run ops (self, h)).2
  = service_calls h ++ flat_map (forwarded ATTR_TEMPERATURE self) ops.
Proof.
  revert self h. induction ops as [|o ops IH]; intros self h Hok.
  - simpl. by rewrite app_nil_r.
  - apply detach_ok_tail in Hok as [Ho Hops]. rewrite run_cons.
    assert (Hcalls := step_effects o self h Ho).
    assert (Hid := step_identity ATTR_TEMPERATURE remove_stale o (self, h)).
    destruct (step o (self, h)) as [self' h'] eqn:E. simpl in Hcalls, Hid.
    rewrite IH by done. rewrite Hcalls. simpl. rewrite <- app_assoc.
    f_equal. f_equal. apply flat_map_ext. intros o'.
    by apply forwarded_identity.
Qed.

(** X8.  Attach does not check for an earlier subscription: after [n]
    attaches the entity holds [n] handles more and every state change of one
    of its sources re-publishes it [n] times more than before. *)
Theorem attaches_accumulate n self h id new :
  id = _matter_entity_id self \/ id = _google_entity_id self ->
  let w := run (replicate n Attach) (self, h) in
  published_by (source_state_changed id new) w.2
  = published_by (source_state_changed id new) h
    ++ replicate n (_attr_unique_id self) /\
  _remove_listeners w.1 = _remove_listeners self ++ seq (next_handle h) n.
Proof.
  intros Hid. revert self h Hid. induction n as [|n IH]; intros self h Hid.
  - simpl. by rewrite !app_nil_r.
  - simpl replicate. cbv zeta. rewrite run_cons.
    assert (Hstep : step Attach (self, h)
            = (set_remove_listeners (_remove_listeners self ++ [next_handle h]) self,
               (async_added_to_hass self h).2)) by done.
    rewrite Hstep.
    destruct (IH (set_remove_listeners (_remove_listeners self ++ [next_handle h]) self)
                (async_added_to_hass self h).2 Hid) as [Hpub Hks].
    cbv zeta in Hpub, Hks. rewrite Hpub, Hks, published_after_attach.
    rewrite bool_decide_eq_true_2.
    + simpl. split; by rewrite <- app_assoc.
    + destruct Hid as [-> | ->]; [apply elem_of_cons; by left|].
      apply elem_of_cons. right. apply elem_of_cons. by left.
Qed.

End Histories.

(** *** Listeners of several entities, and re-attachment *)

Lemma filter_map_receiver uid (ls : list Listener) :
  filter (fun u => u <> uid) (map (fun l => receiver (action l)) ls)
  = map (fun l => receiver (action l))
      (filter (fun l => receiver (action l) <> uid) ls).
Proof.
  induction ls as [|l ls IH]; [done|]. simpl.
  destruct (decide (receiver (action l) <> uid)) as [Hne|Heq].
  - rewrite !filter_cons_True by done. simpl. by rewrite IH.
  - rewrite !filter_cons_False by done. done.
Qed.

Section Ownership.

Variable ATTR_TEMPERATURE : string.
Variable remove_stale : nat -> M unit.

Local Abbreviation step := (step ATTR_TEMPERATURE remove_stale).
Local Abbreviation run := (run ATTR_TEMPERATURE remove_stale).
Local Abbreviation detach := (async_will_remove_from_hass remove_stale).

Lemma step_covers o w :
  is_detach o = false \/ tolerant remove_stale ->
  covers w.1 w.2 -> covers (step o w).1 (step o w).2.
Proof.
  destruct w as [self h]. intros Hok Hcov. simpl in Hcov.
  destruct o; simpl.
  - intros l [Hl | Hl]%elem_of_app Hr; simpl.
    + apply elem_of_app. left. by apply Hcov.
    + apply list_elem_of_singleton in Hl. subst l. simpl.
      apply elem_of_app. right. by apply list_elem_of_singleton.
  - destruct Hok as [Hd | Htol]; [done|].
    unfold async_will_remove_from_hass. rewrite detach_tolerant by done.
    simpl. intros l [_ Hl]%list_elem_of_filter. by apply Hcov.
  - by rewrite source_state_changed_run.
  - destruct (set_temperature_bus ATTR_TEMPERATURE self kwargs h)
      as ([Hl _] & _). intros l. rewrite Hl. apply Hcov.
  - done.
  - done.
  - by rewrite read_host.
Qed.

Lemma run_covers ops w :
  none_of is_detach ops = true \/ tolerant remove_stale ->
  covers w.1 w.2 -> covers (run ops w).1 (run ops w).2.
Proof.
  revert w. induction ops as [|o ops IH]; intros w Hok Hcov; [done|].
  apply detach_ok_tail in Hok as [Ho Hops]. rewrite run_cons.
  apply IH; [done|]. by apply step_covers.
Qed.

Lemma step_owned o w :
  is_detach o = false ->
  host_wf w.2 = true -> owned w.1 w.2 -> owned (step o w).1 (step o w).2.
Proof.
  destruct w as [self h]. intros Ho Hwf Hown. simpl in Hwf, Hown.
  rewrite host_wf_spec in Hwf.
  destruct o; simpl; try done.
  - intros l [Hl | Hl]%elem_of_app; simpl.
    + intros [Hk | Hk]%elem_of_app; [by apply Hown|].
      apply list_elem_of_singleton in Hk. specialize (Hwf l Hl). lia.
    + apply list_elem_of_singleton in Hl. by subst l.
  - by rewrite source_state_changed_run.
  - destruct (set_temperature_bus ATTR_TEMPERATURE self kwargs h)
      as ([Hl _] & _). intros l. rewrite Hl. apply Hown.
  - by rewrite read_host.
Qed.

Lemma run_owned ops w :
  none_of is_detach ops = true ->
  host_wf w.2 = true -> tracks w.1 w.2 -> owned w.1 w.2 ->
  owned (run ops w).1 (run ops w).2.
Proof.
  revert w. induction ops as [|o ops IH]; intros w Hops Hwf Htr Hown; [done|].
  simpl in Hops. apply andb_true_iff in Hops as [Ho Hops].
  apply negb_true_iff in Ho. rewrite run_cons.
  destruct (step_tracks ATTR_TEMPERATURE remove_stale o w Ho Hwf Htr) as [H1 H2].
  apply IH; [done..|]. by apply step_owned.
Qed.

(** X11.  On a host that lets an unsubscribe callable be invoked again,
    detach cleans up after every history, re-attachment after an earlier
    detach included: it returns, no subscription firing the entity's handler
    remains, and a source change no longer re-publishes the entity. *)
Theorem tolerant_host_detach_always_clean name m g e h0 ops :
  tolerant remove_stale ->
  no_listener_of (_attr_unique_id (__init__ name m g e)) h0 = true ->
  let uid := _attr_unique_id (__init__ name m g e) in
  let w := run ops (__init__ name m g e, h0) in
  let d := detach w.1 w.2 in
  d.1 = Returned tt /\
  listeners d.2
  = filter (fun l => handle l ∉ _remove_listeners w.1) (listeners w.2) /\
  no_listener_of uid d.2 = true /\
  (forall id new, uid ∉ published_by (source_state_changed id new) d.2).
Proof.
  intros Htol Hfresh uid w d.
  assert (Hcov : covers w.1 w.2).
  { apply run_covers; [by right|]. intros l Hl Hr. simpl in *.
    by destruct (proj1 (no_listener_of_spec _ _) Hfresh l Hl). }
  assert (Huid : _attr_unique_id w.1 = uid).
  { destruct (run_identity ATTR_TEMPERATURE remove_stale ops
                (__init__ name m g e, h0)) as (_ & _ & _ & _ & H5 & _).
    exact H5. }
  assert (Hd : d = (Returned tt,
            set_listeners
              (filter (fun l => handle l ∉ _remove_listeners w.1) (listeners w.2))
              w.2))
    by (by apply detach_tolerant).
  assert (Hno : no_listener_of uid d.2 = true).
  { apply no_listener_of_spec. rewrite Hd. simpl.
    intros l [Hout Hl]%list_elem_of_filter Hr. apply Hout, Hcov; [done|].
    by rewrite Huid. }
  split; [by rewrite Hd|]. split; [by rewrite Hd|]. split; [done|].
  intros id new. rewrite published_by_notification.
  intros (l & Hr & [_ Hl]%list_elem_of_filter)%list_elem_of_fmap.
  by apply (proj1 (no_listener_of_spec uid d.2) Hno l).
Qed.

(** X12.  The first detach of an entity removes its own subscriptions and
    no others: the subscriptions left are exactly those that fire other
    entities' handlers, and a source change re-publishes those other
    entities exactly as before the detach. *)
Theorem detach_spares_other_entities name m g e h0 before :
  host_wf h0 = true ->
  no_listener_of (_attr_unique_id (__init__ name m g e)) h0 = true ->
  none_of is_detach before = true ->
  let uid := _attr_unique_id (__init__ name m g e) in
  let w := run before (__init__ name m g e, h0) in
  let d := detach w.1 w.2 in
  listeners d.2
  = filter (fun l => receiver (action l) <> uid) (listeners w.2) /\
  (forall id new,
      published_by (source_state_changed id new) d.2
      = filter (fun u => u <> uid)
          (published_by (source_state_changed id new) w.2)).
Proof.
  intros Hwf Hfresh Hbefore uid w d.
  assert (Htr0 := tracks_init name m g e h0 Hfresh).
  destruct (run_tracks ATTR_TEMPERATURE remove_stale before
              (__init__ name m g e, h0) Hbefore Hwf Htr0) as [Hwf1 Htr1].
  assert (Hown : owned w.1 w.2).
  { apply run_owned; [done..|]. intros l _ Hk. by apply elem_of_nil in Hk. }
  fold w in Hwf1, Htr1.
  destruct (detach_of_tracked remove_stale w.1 w.2 Htr1) as [Hd _].
  fold d in Hd.
  assert (Huid : _attr_unique_id w.1 = uid).
  { destruct (run_identity ATTR_TEMPERATURE remove_stale before
                (__init__ name m g e, h0)) as (_ & _ & _ & _ & H5 & _).
    exact H5. }
  assert (Hls : listeners d.2
                = filter (fun l => receiver (action l) <> uid) (listeners w.2)).
  { rewrite Hd. simpl. apply filter_ext_in. intros l Hl.
    destruct Htr1 as (_ & _ & Hcov). split.
    - intros Hout Hr. apply Hout, Hcov; [done|]. by rewrite Huid.
    - intros Hr Hin. apply Hr. rewrite <- Huid. by apply Hown. }
  split; [exact Hls|]. intros id new.
  rewrite !published_by_notification, Hls, filter_map_receiver. f_equal.
  rewrite !list_filter_filter. apply list_filter_iff. intros l. tauto.
Qed.

End Ownership.

(** *** The lifecycle claims *)





Section Claims.

Variable ATTR_TEMPERATURE : string.
Variable remove_stale : nat -> M unit.

Local Abbreviation step := (step ATTR_TEMPERATURE remove_stale).
Local Abbreviation run := (run ATTR_TEMPERATURE remove_stale).
Local Abbreviation detach := (async_will_remove_from_hass remove_stale).




(** C9.  Whatever calls came before (attaches, detaches, reads, commands,
    source changes), a read returns a value settled by the registry as it is
    now: two reads of the same accessor against equal registry contents give
    equal results, however the two histories and the rest of the two hosts
    differ.  A read changes neither the host nor the entity, and no call
    changes the entity's identity (attach only adds a handle). *)
Theorem reads_depend_only_on_registry a self ops1 ops2 h1 h2 :
  let w1 := run ops1 (self, h1) in
  let w2 := run ops2 (self, h2) in
  states w1.2 = states w2.2 ->
  (read a w1.1 w1.2).1 = (read a w2.1 w2.2).1 /\
  (read a w1.1 w1.2).2 = w1.2 /\
  (read a w2.1 w2.2).2 = w2.2 /\
  step (Read a) w1 = w1 /\
  step (Read a) w2 = w2 /\
  same_identity w1.1 self /\
  same_identity w2.1 self.
Proof.
  intros w1 w2 Hstates.
  assert (H1 := run_identity ATTR_TEMPERATURE remove_stale ops1 (self, h1)).
  assert (H2 := run_identity ATTR_TEMPERATURE remove_stale ops2 (self, h2)).
  fold w1 in H1. fold w2 in H2. simpl in H1, H2.
  split.
  - destruct H1 as (_ & Hm1 & Hg1 & _), H2 as (_ & Hm2 & Hg2 & _).
    apply read_value; [by rewrite Hm1, Hm2 | by rewrite Hg1, Hg2 | done].
  - rewrite !read_host. repeat (split; [done|]).
    split; [|split; [|done]].
    + destruct w1 as [p h]. simpl. by rewrite read_host.
    + destruct w2 as [p h]. simpl. by rewrite read_host.
Qed.

End Claims.


(** ** The claims at concrete entities and hosts *)

Lemma stale_ignored_passes k h :
  registered k h = false -> stale_ignored k h = (Returned tt, h).
Proof. reflexivity. Qed.


Lemma set_temperature_21_5 :
  (exists h',
      async_set_temperature HA_ATTR_TEMPERATURE thermostat kwargs_21_5 scenario
      = (Returned tt, h') /\
      called_by (async_set_temperature HA_ATTR_TEMPERATURE thermostat kwargs_21_5)
        scenario
      = [mkCall "climate" "set_temperature"
           (payload "climate.matter" "temperature" (PFloat 21.5%float))]) /\
  (exists h',
      async_set_temperature HA_ATTR_TEMPERATURE thermostat kwargs_21_5 unserved
      = (Raised (HostError "service not found"), h') /\
      called_by (async_set_temperature HA_ATTR_TEMPERATURE thermostat kwargs_21_5)
        unserved
      = [mkCall "climate" "set_temperature"
           (payload "climate.matter" "temperature" (PFloat 21.5%float))]) /\
  async_set_temperature HA_ATTR_TEMPERATURE thermostat ∅ scenario
  = (Returned tt, scenario).
Proof.
  split; [|split].
  - destruct (set_temperature_forwards_to_primary HA_ATTR_TEMPERATURE thermostat
                kwargs_21_5 scenario) as [_ Hsome].
    destruct (Hsome (PFloat 21.5%float) eq_refl) as (h' & Hrun & _ & Hcalls & _).
    { discriminate. }
    exists h'. split; [exact Hrun|exact Hcalls].
  - destruct (set_temperature_forwards_to_primary HA_ATTR_TEMPERATURE thermostat
                kwargs_21_5 unserved) as [_ Hsome].
    destruct (Hsome (PFloat 21.5%float) eq_refl) as (h' & Hrun & _ & Hcalls & _).
    { discriminate. }
    exists h'. split; [exact Hrun|exact Hcalls].
  - apply (set_temperature_forwards_to_primary HA_ATTR_TEMPERATURE thermostat
             ∅ scenario). by left.
Defined.

Lemma mode_setters_on_refusing_dispatcher :
  (async_set_hvac_mode thermostat (PStr "bogus") unserved).1
  = Raised (HostError "service not found") /\
  called_by (async_set_hvac_mode thermostat (PStr "bogus")) unserved
  = [mkCall "climate" "set_hvac_mode"
       (payload "climate.google" "hvac_mode" (PStr "bogus"))] /\
  (async_set_fan_mode thermostat PNone scenario).1 = Returned tt /\
  called_by (async_set_fan_mode thermostat PNone) scenario
  = [mkCall "climate" "set_fan_mode" (payload "climate.google" "fan_mode" PNone)].
Proof.
  destruct (mode_setters_forward_to_secondary thermostat (PStr "bogus") unserved)
    as [(h1 & Hrun1 & Hcalls1 & _) _].
  destruct (mode_setters_forward_to_secondary thermostat PNone scenario)
    as [_ (h2 & Hrun2 & Hcalls2 & _)].
  split; [by rewrite Hrun1|]. split; [exact Hcalls1|].
  split; [by rewrite Hrun2|exact Hcalls2].
Defined.

Lemma hvac_mode_reports_unavailable_state_witness :
  states google_down !! _google_entity_id thermostat = Some down_record /\
  state down_record = "unavailable" /\
  hvac_mode thermostat google_down = (Returned (PStr "unavailable"), google_down) /\
  PStr "unavailable" <> PNone /\
  available thermostat google_down = (Returned false, google_down).
Proof.
  split; [reflexivity|]. split; [reflexivity|].
  apply (hvac_mode_reports_unavailable_state thermostat google_down down_record);
    reflexivity.
Defined.

Lemma attach_publishes_nothing_at_scenario :
  published_by (async_added_to_hass thermostat) scenario = [] /\
  length (published_by (async_added_to_hass thermostat) scenario) <> 1%nat /\
  async_update thermostat scenario = (Returned tt, scenario).
Proof. split; [reflexivity|]. split; [|reflexivity]. vm_compute. lia. Qed.





Lemma reads_depend_only_on_registry_witness :
  let w1 := run HA_ATTR_TEMPERATURE stale_raises busy_day (thermostat, scenario) in
  let w2 := run HA_ATTR_TEMPERATURE stale_raises [Read HvacMode] (thermostat, scenario) in
  states w1.2 = states w2.2 /\
  w1.2 <> w2.2 /\
  (read CurrentTemperature w1.1 w1.2).1 = (read CurrentTemperature w2.1 w2.2).1 /\
  (read CurrentTemperature w1.1 w1.2).1 = Returned (PFloat 19.5%float).
Proof.
  assert (Hst :
    states (run HA_ATTR_TEMPERATURE stale_raises busy_day (thermostat, scenario)).2
    = states (run HA_ATTR_TEMPERATURE stale_raises [Read HvacMode]
                (thermostat, scenario)).2) by reflexivity.
  split; [exact Hst|]. split.
  - intros H. apply (f_equal next_handle) in H. vm_compute in H. discriminate.
  - destruct (reads_depend_only_on_registry HA_ATTR_TEMPERATURE stale_raises
                CurrentTemperature thermostat busy_day [Read HvacMode]
                scenario scenario Hst) as (Heq & _).
    split; [exact Heq|]. reflexivity.
Defined.

Section Reattachment.

Variable ATTR_TEMPERATURE : string.
Variable remove_stale : nat -> M unit.

Local Abbreviation detach := (async_will_remove_from_hass remove_stale).

(** X13.  The loop of detach has no handler for exceptions and the handles
    are never dropped, so on a host whose unsubscribe callables raise when
    invoked again an entity that was attached, detached and attached again
    cannot be detached: detach raises at the first, stale handle, the
    subscription of the second attach stays registered, and a change of a
    source goes on re-publishing the entity. *)
Theorem reattached_entity_keeps_listener_on_raising_host name m g e h0 :
  raises_on_stale remove_stale ->
  let uid := _attr_unique_id (__init__ name m g e) in
  let w := run ATTR_TEMPERATURE remove_stale [Attach; Detach; Attach]
             (__init__ name m g e, h0) in
  let d := detach w.1 w.2 in
  (exists x, d.1 = Raised x) /\
  d.2 = w.2 /\
  _remove_listeners w.1 = [next_handle h0; S (next_handle h0)] /\
  registered (S (next_handle h0)) d.2 = true /\
  (forall new, uid ∈ published_by (source_state_changed m new) d.2).
Proof.
  intros Hraise uid w d.
  set (k := next_handle h0).
  set (L0 := mkListener k [m; g] (mkBound uid)).
  set (L1 := mkListener (S k) [m; g] (mkBound uid)).
  set (p1 := set_remove_listeners [k] (__init__ name m g e)).
  set (h1 := set_next_handle (S k) (set_listeners (listeners h0 ++ [L0]) h0)).
  set (h2 := set_listeners (drop_listener k (listeners h1)) h1).
  set (h3 := set_next_handle (S (S k))
               (set_listeners (listeners h2 ++ [L1]) h2)).
  assert (Hreg1 : registered k h1 = true).
  { apply registered_true. exists L0. split; [|done].
    apply elem_of_app. right. by apply list_elem_of_singleton. }
  assert (Hdet1 : detach p1 h1 = (Returned tt, h2)).
  { unfold async_will_remove_from_hass. simpl.
    erewrite bind_returned; [|by apply remove_listener_live]. done. }
  assert (Hw : w = (set_remove_listeners [k; S k] (__init__ name m g e), h3)).
  { unfold w. rewrite !run_cons.
    change (step ATTR_TEMPERATURE remove_stale Attach (__init__ name m g e, h0))
      with (p1, h1).
    rewrite step_detach. simpl fst. simpl snd. rewrite Hdet1. done. }
  assert (Hgone : registered k h3 = false).
  { apply registered_false. simpl.
    intros l [[Hne _]%list_elem_of_filter | Hl]%elem_of_app; [done|].
    apply list_elem_of_singleton in Hl. subst l. simpl. lia. }
  destruct (Hraise k h3 Hgone) as [x Hx].
  assert (Hd : d = (Raised x, h3)).
  { unfold d. rewrite Hw. unfold async_will_remove_from_hass. simpl.
    apply bind_raised. by rewrite remove_listener_gone. }
  rewrite Hd, Hw. simpl.
  split; [by exists x|]. split; [done|]. split; [done|]. split.
  - apply registered_true. exists L1. split; [|done].
    apply elem_of_app. right. by apply list_elem_of_singleton.
  - intros new. rewrite published_by_notification.
    apply list_elem_of_fmap. exists L1. split; [done|].
    apply list_elem_of_filter. split.
    + simpl. apply elem_of_cons. by left.
    + simpl. apply elem_of_app. right. by apply list_elem_of_singleton.
Qed.

End Reattachment.

(** *** The further statements at concrete entities and hosts *)

Lemma stale_ignored_tolerant : tolerant stale_ignored.
Proof. intros k h _. reflexivity. Qed.

Lemma stale_raises_on_stale : raises_on_stale stale_raises.
Proof. intros k h _. by eexists. Qed.

Lemma configured_entity_witness :
  hass_data !! "nest_matters" = Some {["e1" := hallway_config]} /\
  async_setup_entry hass_data (mkEntry "e1") = Added [thermostat] /\
  async_setup_entry hass_data (mkEntry "e2") = KeyError "e2" /\
  exists entity,
    async_setup_entry hass_data (mkEntry "e1") = Added [entity] /\
    (listeners (async_added_to_hass entity scenario).2
     = [mkListener 0 ["climate.matter"; "climate.google"]
          (mkBound "nest_matters_e1")]).
Proof.
  split; [reflexivity|]. split; [reflexivity|]. split; [reflexivity|].
  destruct (configured_entity_listens_to_configured_sources hass_data
              (mkEntry "e1") {["e1" := hallway_config]} hallway_config
              "Hallway" "climate.matter" "climate.google"
              eq_refl eq_refl eq_refl eq_refl eq_refl) as (entity & Hsetup & Hatt).
  exists entity. split; [exact Hsetup|].
  destruct (Hatt scenario) as (entity' & h' & Hrun & Hls & _).
  rewrite Hrun. exact Hls.
Defined.

Lemma reads_ignore_other_entities_witness :
  "climate.google" <> _matter_entity_id thermostat /\
  (read CurrentTemperature thermostat
     (source_state_changed "climate.google" (Some down_record) scenario).2).1
  = Returned (PFloat 19.5%float) /\
  (read HvacMode thermostat
     (source_state_changed "climate.google" (Some down_record) scenario).2).1
  = Returned (PStr "unavailable").
Proof.
  split; [discriminate|]. split; [|reflexivity].
  rewrite (reads_ignore_other_entities CurrentTemperature thermostat
             "climate.google" (Some down_record) scenario).
  - reflexivity.
  - intros _. discriminate.
  - intros H. discriminate H.
Defined.

Lemma available_entity_has_a_mode_witness :
  available thermostat scenario = (Returned true, scenario) /\
  (exists s, hvac_mode thermostat scenario = (Returned (PStr s), scenario) /\
             s <> "unavailable").
Proof.
  split; [reflexivity|].
  apply (available_entity_has_a_mode thermostat scenario). reflexivity.
Defined.

Lemma attaches_accumulate_witness :
  let w := run HA_ATTR_TEMPERATURE stale_raises (replicate 3 Attach)
             (thermostat, scenario) in
  published_by (source_state_changed "climate.google" None) w.2
  = replicate 3 "nest_matters_e1" /\
  _remove_listeners w.1 = [0; 1; 2]%nat.
Proof.
  apply (attaches_accumulate HA_ATTR_TEMPERATURE stale_raises 3 thermostat
           scenario "climate.google" None). by right.
Defined.

Lemma history_issues_only_forwarded_commands_witness :
  none_of is_detach busy_day = true /\
  service_calls (run HA_ATTR_TEMPERATURE stale_raises busy_day
                   (thermostat, scenario)).2
  = [ mkCall "climate" "set_temperature"
        (payload "climate.matter" "temperature" (PFloat 21.5%float));
      mkCall "climate" "set_hvac_mode"
        (payload "climate.google" "hvac_mode" (PStr "off")) ].
Proof.
  split; [reflexivity|].
  apply (history_issues_only_forwarded_commands HA_ATTR_TEMPERATURE
           stale_raises busy_day thermostat scenario). by left.
Defined.

Lemma tolerant_host_detach_always_clean_witness :
  let w := run HA_ATTR_TEMPERATURE stale_ignored reattach_day
             (thermostat, shared_host) in
  let d := async_will_remove_from_hass stale_ignored w.1 w.2 in
  no_listener_of (_attr_unique_id thermostat) shared_host = true /\
  _remove_listeners w.1 = [1; 2; 3]%nat /\
  d.1 = Returned tt /\
  no_listener_of (_attr_unique_id thermostat) d.2 = true.
Proof.
  split; [reflexivity|]. split; [reflexivity|].
  destruct (tolerant_host_detach_always_clean HA_ATTR_TEMPERATURE stale_ignored
              "Hallway" "climate.matter" "climate.google" "e1" shared_host
              reattach_day stale_ignored_tolerant eq_refl)
    as (Hret & _ & Hno & _).
  split; [exact Hret|exact Hno].
Defined.

Lemma detach_spares_other_entities_witness :
  let w := run HA_ATTR_TEMPERATURE stale_raises busy_day
             (thermostat, shared_host) in
  let d := async_will_remove_from_hass stale_raises w.1 w.2 in
  host_wf shared_host = true /\
  no_listener_of (_attr_unique_id thermostat) shared_host = true /\
  none_of is_detach busy_day = true /\
  published_by (source_state_changed "climate.matter" None) w.2
  = ["nest_matters_e2"; "nest_matters_e1"] /\
  published_by (source_state_changed "climate.matter" None) d.2
  = filter (fun u => u <> "nest_matters_e1")
      (published_by (source_state_changed "climate.matter" None) w.2).
Proof.
  do 4 (split; [reflexivity|]).
  apply (detach_spares_other_entities HA_ATTR_TEMPERATURE stale_raises
           "Hallway" "climate.matter" "climate.google" "e1" shared_host
           busy_day eq_refl eq_refl eq_refl).
Defined.

Lemma reattached_entity_witness :
  let w := run HA_ATTR_TEMPERATURE stale_raises [Attach; Detach; Attach]
             (thermostat, scenario) in
  let d := async_will_remove_from_hass stale_raises w.1 w.2 in
  d.1 = Raised (HostError "listener is not registered") /\
  d.2 = w.2 /\
  "nest_matters_e1" ∈ published_by (source_state_changed "climate.matter" None) d.2.
Proof.
  destruct (reattached_entity_keeps_listener_on_raising_host HA_ATTR_TEMPERATURE
              stale_raises "Hallway" "climate.matter" "climate.google" "e1"
              scenario stale_raises_on_stale) as (_ & Hsame & _ & _ & Hpub).
  split; [reflexivity|]. split; [exact Hsame|]. apply Hpub.
Defined.
